(** * combine_files.py: a directory of images and PDFs merged into one PDF

  A shallow embedding of [src/combine_files.py] and the properties its
  specification states about it.

  Layout: Python strings and [pathlib] paths; the file system, exceptions
  and the effect monad; the external collaborators (PIL and pypdf) as an
  interface; the program, function by function; then the theorems. *)

From Stdlib Require Import List String Ascii ZArith Bool Lia.
From Stdlib Require Import Permutation Sorted.
Import ListNotations.

Set Warnings "-register-all".

Local Open Scope string_scope.
Local Open Scope Z_scope.

(* ================================================================== *)
(** * Python strings *)
(* ================================================================== *)

(** A [str] is modelled as a Rocq [string].  The operations the program uses
  are written out below.  [String.compare] orders strings as Python does,
  by code point, the shorter string first on a common prefix. *)
Module PyStr.

(** [str.lower] on one character: only [A-Z] change.  (The four extensions
    of the program are ASCII, and none of their letters is the lower-case
    form of a character outside ASCII.) *)
Definition lower_ascii (c : ascii) : ascii :=
  let n := N_of_ascii c in
  if ((65 <=? n) && (n <=? 90))%N then ascii_of_N (n + 32) else c.

(** [str.lower()]. *)
Fixpoint lower (s : string) : string :=
  match s with
  | EmptyString => EmptyString
  | String c s' => String (lower_ascii c) (lower s')
  end.

(** [len(s)]. *)
Definition len (s : string) : Z := Z.of_nat (String.length s).

(** [s.rfind(c)]: the highest index at which [c] occurs, [-1] if none. *)
Fixpoint rfind (c : ascii) (s : string) : Z :=
  match s with
  | EmptyString => -1
  | String a s' =>
      let r := rfind c s' in
      if 0 <=? r then r + 1
      else if Ascii.eqb a c then 0 else -1
  end.

(** [s[i:]] for [0 <= i]. *)
Fixpoint slice_from (i : nat) (s : string) : string :=
  match i, s with
  | O, _ => s
  | S _, EmptyString => EmptyString
  | S i', String _ s' => slice_from i' s'
  end.

(** [s[:1]], [s[1:2]], [s[2:3]]: the one-character slices of
    [posixpath.splitroot]. *)
Definition slice1 (i : nat) (s : string) : string :=
  match slice_from i s with
  | EmptyString => EmptyString
  | String c _ => String c EmptyString
  end.

(** [s.split(sep)] for a one-character separator: never empty,
    [''.split('/') = ['']]. *)
Fixpoint split (sep : ascii) (s : string) : list string :=
  match s with
  | EmptyString => [EmptyString]
  | String c s' =>
      if Ascii.eqb c sep then EmptyString :: split sep s'
      else match split sep s' with
           | h :: t => String c h :: t
           | [] => [String c EmptyString]
           end
  end.

(** [sep.join(parts)]. *)
Fixpoint join (sep : string) (parts : list string) : string :=
  match parts with
  | [] => EmptyString
  | [x] => x
  | x :: rest => x ++ sep ++ join sep rest
  end.

(** [template.format(arg)] for a template with positional fields [{}]
    only: the first field is replaced by [arg]. *)
Fixpoint format (template arg : string) : string :=
  match template with
  | String "{" (String "}" rest) => arg ++ rest
  | String c rest => String c (format rest arg)
  | EmptyString => EmptyString
  end.

(** [x in xs] for a tuple of strings. *)
Definition mem (x : string) (xs : list string) : bool :=
  existsb (String.eqb x) xs.

(** Truthiness of a string: the empty string is false. *)
Definition truthy (s : string) : bool :=
  match s with EmptyString => false | _ => true end.

End PyStr.

(* ================================================================== *)
(** * [pathlib.Path] on POSIX *)
(* ================================================================== *)

(** A parsed pure path: the root (['' ], ['/'] or ['//']; the drive is always
  empty on POSIX) and the components after it. *)
Record Path : Type := mkPath { root : string; tail : list string }.

Module Pathlib.

(** [posixpath.splitroot], without the drive, which is always empty. *)
Definition splitroot (p : string) : string * string :=
  if negb (String.eqb (PyStr.slice1 0 p) "/") then ("", p)
  else if negb (String.eqb (PyStr.slice1 1 p) "/")
          || String.eqb (PyStr.slice1 2 p) "/"
       then ("/", PyStr.slice_from 1 p)
       else ("//", PyStr.slice_from 2 p).

(** [Path(s)]: split the root off, split the rest on ['/'] and drop the
    empty components and the ['.'] components. *)
Definition of_str (s : string) : Path :=
  let '(rt, rel) := splitroot s in
  mkPath rt (filter (fun x => PyStr.truthy x && negb (String.eqb x "."))
                    (PyStr.split "/" rel)).

(** [str(path)]: the empty path prints as ['.']. *)
Definition str (p : Path) : string :=
  match root p, tail p with
  | EmptyString, [] => "."
  | rt, tl => rt ++ PyStr.join "/" tl
  end.

(** [path.name]: the last component, [''] when there is none. *)
Definition name (p : Path) : string := last (tail p) "".

(** [path.suffix]: the name from its last dot on, unless that dot is the
    first or the last character of the name. *)
Definition suffix (p : Path) : string :=
  let nm := name p in
  let i := PyStr.rfind "." nm in
  if (0 <? i) && (i <? PyStr.len nm - 1)
  then PyStr.slice_from (Z.to_nat i) nm
  else "".

(** [path / key] for a string [key]: an absolute [key] replaces the path,
    a relative one is appended component by component. *)
Definition truediv (p : Path) (key : string) : Path :=
  let q := of_str key in
  if PyStr.truthy (root q) then q
  else mkPath (root p) (tail p ++ tail q).

(** [path._make_child_relpath(name)], what [iterdir] yields for an entry:
    the entry's name is appended as it is. *)
Definition child (p : Path) (nm : string) : Path :=
  mkPath (root p) (tail p ++ [nm]).

(** The sort key of a path, [_cparts]: the root, when there is one, then
    the components.  (Later releases of pathlib compare
    [str(path).split('/')] instead; on the entries of one directory, which
    is all that the program sorts, the two orders are the same, and the same
    as the order of the full path strings: [ltb_child], [str_child_leb].) *)
Definition cparts (p : Path) : list string :=
  if PyStr.truthy (root p) then root p :: tail p else tail p.

(** Python's [<] on lists of strings: the first differing position
    decides, a proper prefix is smaller. *)
Fixpoint list_compare (a b : list string) : comparison :=
  match a, b with
  | [], [] => Eq
  | [], _ :: _ => Lt
  | _ :: _, [] => Gt
  | x :: a', y :: b' =>
      match String.compare x y with
      | Eq => list_compare a' b'
      | c => c
      end
  end.

(** [p < q] on paths. *)
Definition ltb (p q : Path) : bool :=
  match list_compare (cparts p) (cparts q) with Lt => true | _ => false end.

End Pathlib.

(* ================================================================== *)
(** * Exceptions and results *)
(* ================================================================== *)

(** The exception classes that occur.  All but [KeyboardInterrupt] derive
  from [Exception]; [KeyboardInterrupt] derives from [BaseException]
  only. *)
Inductive exn_class : Type :=
| FileNotFoundError
| NotADirectoryError
| IsADirectoryError
| UnidentifiedImageError
| PdfReadError
| IndexError
| ZeroDivisionError
| OverflowError
| EOFError
| KeyboardInterrupt.

(** An exception: its class and [str(e)]. *)
Record exn : Type := mkExn { exn_cls : exn_class; exn_str : string }.

(** [isinstance(e, Exception)]. *)
Definition is_Exception (e : exn) : bool :=
match exn_cls e with
| KeyboardInterrupt => false
| _ => true
end.

(** What a call produces: a value, or a raised exception. *)
Inductive result (A : Type) : Type :=
| Ok (a : A)
| Raise (e : exn).
Arguments Ok {A} a.
Arguments Raise {A} e.

Definition bytes : Type := list Byte.byte.

(* ================================================================== *)
(** * The file system *)
(* ================================================================== *)

(** A tree of directories and regular files.  The entries of a directory are
  kept in the order in which the operating system lists them, which is
  arbitrary. *)
Inductive node : Type :=
| File (data : bytes)
| Dir (entries : list (string * node)).

Record filesystem : Type := mkFs { fs_root : node; fs_cwd : list string }.

Module OS.

Fixpoint assoc (k : string) (es : list (string * node)) : option node :=
  match es with
  | [] => None
  | (k', n) :: es' => if String.eqb k k' then Some n else assoc k es'
  end.

(** The node at an absolute list of names. *)
Fixpoint lookup (n : node) (names : list string) : option node :=
  match names with
  | [] => Some n
  | x :: rest =>
      match n with
      | Dir es =>
          match assoc x es with
          | Some c => lookup c rest
          | None => None
          end
      | File _ => None
      end
  end.

(** Walking the components of a path from a directory: every component is
    taken from an existing directory, ['..'] goes one level up. *)
Fixpoint walk (rt : node) (cur comps : list string) : option (list string) :=
  match comps with
  | [] => Some cur
  | c :: rest =>
      match lookup rt cur with
      | Some (Dir _) =>
          walk rt (if String.eqb c ".." then removelast cur else cur ++ [c]) rest
      | _ => None
      end
  end.

(** Path resolution: a relative path starts at the working directory. *)
Definition namei (fs : filesystem) (s : string) : option (list string) :=
  let p := Pathlib.of_str s in
  walk (fs_root fs) (if PyStr.truthy (root p) then [] else fs_cwd fs) (tail p).

Definition stat (fs : filesystem) (s : string) : option node :=
  match namei fs s with
  | Some names => lookup (fs_root fs) names
  | None => None
  end.

Definition enoent (s : string) : exn :=
  mkExn FileNotFoundError ("[Errno 2] No such file or directory: '" ++ s ++ "'").
Definition enotdir (s : string) : exn :=
  mkExn NotADirectoryError ("[Errno 20] Not a directory: '" ++ s ++ "'").
Definition eisdir (s : string) : exn :=
  mkExn IsADirectoryError ("[Errno 21] Is a directory: '" ++ s ++ "'").

(** The error of a path at which there is nothing: [ENOTDIR] when a
    component on the way is a regular file, [ENOENT] when a component is
    missing. *)
Fixpoint walk_error (rt : node) (cur comps : list string) (s : string) : exn :=
  match comps with
  | [] => enoent s
  | c :: rest =>
      match lookup rt cur with
      | Some (Dir _) =>
          walk_error rt
            (if String.eqb c ".." then removelast cur else cur ++ [c]) rest s
      | Some (File _) => enotdir s
      | None => enoent s
      end
  end.

Definition lookup_error (fs : filesystem) (s : string) : exn :=
  let p := Pathlib.of_str s in
  walk_error (fs_root fs) (if PyStr.truthy (root p) then [] else fs_cwd fs)
    (tail p) s.

(** [os.path.isdir]: false for what does not exist. *)
Definition isdir (fs : filesystem) (s : string) : bool :=
  match stat fs s with
  | Some (Dir _) => true
  | _ => false
  end.

(** [os.listdir]: the names of the entries, in the directory's order.  A
    regular file is not a directory; where there is nothing the error is
    that of the path. *)
Definition listdir (fs : filesystem) (s : string) : result (list string) :=
  match stat fs s with
  | Some (Dir es) => Ok (map fst es)
  | Some (File _) => Raise (enotdir s)
  | None => Raise (lookup_error fs s)
  end.

(** [open(s, "rb").read()]. *)
Definition read (fs : filesystem) (s : string) : result bytes :=
  match stat fs s with
  | Some (File data) => Ok data
  | Some (Dir _) => Raise (eisdir s)
  | None => Raise (lookup_error fs s)
  end.

Fixpoint replace (k : string) (n : node) (es : list (string * node))
  : list (string * node) :=
  match es with
  | [] => []
  | (k', n') :: es' =>
      if String.eqb k k' then (k', n) :: es' else (k', n') :: replace k n es'
  end.

(** The tree with the regular file at [names] set to [data]; the file is
    created when only its last name is missing. *)
Fixpoint store (n : node) (names : list string) (data : bytes) : option node :=
  match names with
  | [] => match n with File _ => Some (File data) | Dir _ => None end
  | x :: rest =>
      match n with
      | File _ => None
      | Dir es =>
          match assoc x es with
          | Some c =>
              match store c rest data with
              | Some c' => Some (Dir (replace x c' es))
              | None => None
              end
          | None =>
              match rest with
              | [] => Some (Dir (es ++ [(x, File data)])%list)
              | _ :: _ => None
              end
          end
      end
  end.

(** [open(s, "wb")]: the file is created, or truncated when it exists.
    The handle is the absolute location of the file. *)
Definition open_wb (fs : filesystem) (s : string)
  : result (list string * filesystem) :=
  match namei fs s with
  | None => Raise (lookup_error fs s)
  | Some names =>
      match lookup (fs_root fs) names with
      | Some (Dir _) => Raise (eisdir s)
      | _ =>
          match store (fs_root fs) names [] with
          | Some rt' => Ok (names, mkFs rt' (fs_cwd fs))
          | None => Raise (enoent s)
          end
      end
  end.

(** [handle.write(data)] on a handle opened for writing: the data goes to
    the end of the file. *)
Definition write (fs : filesystem) (handle : list string) (data : bytes)
  : filesystem :=
  match lookup (fs_root fs) handle with
  | Some (File old) =>
      match store (fs_root fs) handle (old ++ data)%list with
      | Some rt' => mkFs rt' (fs_cwd fs)
      | None => fs
      end
  | _ => fs
  end.

End OS.

(* ================================================================== *)
(** * The world and the effect monad *)
(* ================================================================== *)

(** The accesses to files that a run makes, in order.  The log is not a
    variable of the program: it records which calls were made, so that
    statements on their order can be made. *)
Inductive event : Type :=
| EvListdir (p : string)
| EvImageOpen (p : string)
| EvPdfOpen (p : string)
| EvOpenWb (p : string).

(** What the user does at a prompt: a line is typed, or the interrupt key is
  hit.  An exhausted standard input is at end of file. *)
Inductive keyboard : Type :=
| Line (s : string)
| Interrupt.

Record world : Type := mkWorld {
w_fs : filesystem;
w_log : list event;
w_stdin : list keyboard;
w_stdout : list string
}.

(** A computation: it reads and changes the world and returns or raises. *)
Definition M (A : Type) : Type := world -> result A * world.

Definition ret {A} (a : A) : M A := fun w => (Ok a, w).

Definition raise {A} (e : exn) : M A := fun w => (Raise e, w).

Definition bind {A B} (c : M A) (k : A -> M B) : M B :=
fun w =>
  match c w with
  | (Ok a, w') => k a w'
  | (Raise e, w') => (Raise e, w')
  end.

Notation "x <- c ;; k" := (bind c (fun x => k))
(at level 61, c at next level, right associativity).
Notation "c ;;; k" := (bind c (fun _ => k))
(at level 61, right associativity).

Definition lift {A} (r : result A) : M A := fun w => (r, w).

Definition get_fs : M filesystem := fun w => (Ok (w_fs w), w).

Definition put_fs (fs : filesystem) : M unit :=
fun w => (Ok tt, mkWorld fs (w_log w) (w_stdin w) (w_stdout w)).

Definition log (e : event) : M unit :=
fun w => (Ok tt, mkWorld (w_fs w) (w_log w ++ [e]) (w_stdin w) (w_stdout w)).

(** [sys.stdout.write(s)]. *)
Definition stdout_write (s : string) : M unit :=
fun w => (Ok tt, mkWorld (w_fs w) (w_log w) (w_stdin w) (w_stdout w ++ [s])).

(** [print(s)]. *)
Definition print (s : string) : M unit :=
stdout_write (s ++ String "010" "").

(** [input(prompt)]: the prompt is written, then a line is read.  End of
  file raises [EOFError], the interrupt key [KeyboardInterrupt]. *)
Definition input (prompt : string) : M string :=
stdout_write prompt ;;;
fun w =>
  match w_stdin w with
  | [] => (Raise (mkExn EOFError "EOF when reading a line"), w)
  | Line s :: rest =>
      (Ok s, mkWorld (w_fs w) (w_log w) rest (w_stdout w))
  | Interrupt :: rest =>
      (Raise (mkExn KeyboardInterrupt ""),
       mkWorld (w_fs w) (w_log w) rest (w_stdout w))
  end.

(** The methods of [Path] that touch the file system. *)
Module PathIO.

(** [path.is_dir()]. *)
Definition is_dir (p : Path) : M bool :=
  fs <- get_fs ;; ret (OS.isdir fs (Pathlib.str p)).

(** [path.iterdir()], consumed to its end: a child path per entry. *)
Definition iterdir (p : Path) : M (list Path) :=
  log (EvListdir (Pathlib.str p)) ;;;
  fs <- get_fs ;;
  names <- lift (OS.listdir fs (Pathlib.str p)) ;;
  ret (map (Pathlib.child p) names).

(** [with path.open("wb") as output: output.write(data)]. *)
Definition write_wb (p : Path) (data : bytes) : M unit :=
  log (EvOpenWb (Pathlib.str p)) ;;;
  fs <- get_fs ;;
  opened <- lift (OS.open_wb fs (Pathlib.str p)) ;;
  put_fs (snd opened) ;;;
  fs' <- get_fs ;;
  put_fs (OS.write fs' (fst opened) data).

End PathIO.

(* ================================================================== *)
(** * The external collaborators *)
(* ================================================================== *)

(** PIL and pypdf are used as black boxes.  Their operations are the fields
    of this interface, and the program is written against it.  Opening an
    image and reading a document can raise (a decode error), and so can the
    encoding of an image, which divides by the resolution; converting and
    serializing work in memory and return. *)
Class Collaborators : Type := {
  (** a decoded raster image, [PIL.Image.Image] *)
  image : Type;
  (** a page object of pypdf *)
  page : Type;
  (** [Image.open] on the contents of a file, with the loading of the
      pixels that [convert] triggers *)
  Image_decode : bytes -> result image;
  (** [image.convert(mode)] *)
  Image_convert : image -> string -> image;
  (** what [image.save(stream, "PDF", resolution=dpi)] writes, or what it
      raises *)
  Image_encode_pdf : image -> Z -> result bytes;
  (** [pypdf.PdfReader(...).pages] on the contents of a document *)
  PdfReader_parse : bytes -> result (list page);
  (** what [PdfWriter.write] writes for the pages added so far *)
  PdfWriter_serialize : list page -> bytes
}.

(** [io.BytesIO]: the buffer and the position in it. *)
Record BytesIO : Type := mkBytesIO { getvalue : bytes; tell : nat }.

Definition BytesIO_new : BytesIO := mkBytesIO [] 0%nat.

(** [stream.write(data)] at a position inside the buffer or at its end. *)
Definition BytesIO_write (b : BytesIO) (data : bytes) : BytesIO :=
  mkBytesIO (firstn (tell b) (getvalue b) ++ data
             ++ skipn (tell b + List.length data) (getvalue b))%list
            (tell b + List.length data).

(** [stream.seek(n)]. *)
Definition BytesIO_seek (b : BytesIO) (n : nat) : BytesIO :=
  mkBytesIO (getvalue b) n.

(* ================================================================== *)
(** * The program *)
(* ================================================================== *)

(** [PathLike = Union[str, Path]]. *)
Inductive PathLike : Type :=
| PStr (s : string)
| PPath (p : Path).

Definition DEFAULT_OUTPUT_FILENAME : string := "{}_combined_output.pdf".

(** [ensure_path]. *)
Definition ensure_path (path : PathLike) : Path :=
  match path with
  | PStr s => Pathlib.of_str s
  | PPath p => p
  end.

(** [sorted]: a stable sort that compares with [<] only.  An element goes in
    front of the first element of the sorted rest that is not smaller. *)
Fixpoint insert {A} (lt : A -> A -> bool) (x : A) (l : list A) : list A :=
  match l with
  | [] => [x]
  | y :: l' => if lt y x then y :: insert lt x l' else x :: l
  end.

Fixpoint sorted {A} (lt : A -> A -> bool) (l : list A) : list A :=
  match l with
  | [] => []
  | x :: l' => insert lt x (sorted lt l')
  end.

Definition valid_extensions : list string := [".png"; ".jpeg"; ".jpg"; ".pdf"].

(** The filter of the generator expression in [get_input_files]. *)
Definition has_valid_extension (file : Path) : bool :=
  PyStr.mem (PyStr.lower (Pathlib.suffix file)) valid_extensions.

(** [get_input_files]. *)
Definition get_input_files (directory : PathLike) : M (list Path) :=
  let directory := ensure_path directory in
  entries <- PathIO.iterdir directory ;;
  ret (sorted Pathlib.ltb (filter has_valid_extension entries)).

(** [Image.open(image_path)]. *)
Definition Image_open `{Collaborators} (image_path : Path) : M image :=
  log (EvImageOpen (Pathlib.str image_path)) ;;;
  fs <- get_fs ;;
  data <- lift (OS.read fs (Pathlib.str image_path)) ;;
  lift (Image_decode data).

(** [convert_image_to_pdf]. *)
Definition convert_image_to_pdf `{Collaborators}
  (image_path : PathLike) (image_dpi : Z) : M BytesIO :=
  let image_path := ensure_path image_path in
  image <- Image_open image_path ;;
  let pdf_bytes := BytesIO_new in
  encoded <- lift (Image_encode_pdf (Image_convert image "RGB") image_dpi) ;;
  let pdf_bytes := BytesIO_write pdf_bytes encoded in
  let pdf_bytes := BytesIO_seek pdf_bytes 0 in
  ret pdf_bytes.

(** [pypdf.PdfReader(path).pages] for a path given as a string. *)
Definition PdfReader_path `{Collaborators} (s : string) : M (list page) :=
  log (EvPdfOpen s) ;;;
  fs <- get_fs ;;
  data <- lift (OS.read fs s) ;;
  lift (PdfReader_parse data).

(** [pypdf.PdfReader(stream).pages]: pypdf finds the document from the end
    of the stream, whatever the position of the stream is. *)
Definition PdfReader_stream `{Collaborators} (b : BytesIO) : M (list page) :=
  lift (PdfReader_parse (getvalue b)).

(** [pages[0]]. *)
Definition pages_first {A} (pages : list A) : M A :=
  match pages with
  | p :: _ => ret p
  | [] => raise (mkExn IndexError "sequence index out of range")
  end.

(** [pypdf.PdfWriter()]: the pages added so far. *)
Definition PdfWriter `{Collaborators} : Type := list page.

Definition PdfWriter_new `{Collaborators} : PdfWriter := [].

(** [pdf_writer.add_page(page)]. *)
Definition add_page `{Collaborators} (w : PdfWriter) (p : page) : PdfWriter :=
  (w ++ [p])%list.

(** The body of the loop over the input files, lines 81 to 88. *)
Definition add_file `{Collaborators}
  (image_dpi : Z) (pdf_writer : PdfWriter) (file : Path) : M PdfWriter :=
  if String.eqb (PyStr.lower (Pathlib.suffix file)) ".pdf" then
    pages <- PdfReader_path (Pathlib.str file) ;;
    ret (fold_left add_page pages pdf_writer)
  else
    pdf_bytes <- convert_image_to_pdf (PPath file) image_dpi ;;
    pages <- PdfReader_stream pdf_bytes ;;
    first <- pages_first pages ;;
    ret (add_page pdf_writer first).

(** [for file in input_files: ...]. *)
Fixpoint add_files `{Collaborators}
  (image_dpi : Z) (pdf_writer : PdfWriter) (input_files : list Path)
  : M PdfWriter :=
  match input_files with
  | [] => ret pdf_writer
  | file :: rest =>
      pdf_writer' <- add_file image_dpi pdf_writer file ;;
      add_files image_dpi pdf_writer' rest
  end.

(** Lines 73 to 76: the save path, completed when it is a directory. *)
Definition resolve_save_path (directory save_path : Path) : M Path :=
  isdir <- PathIO.is_dir save_path ;;
  if (isdir : bool)
  then ret (Pathlib.truediv save_path
              (PyStr.format DEFAULT_OUTPUT_FILENAME (Pathlib.name directory)))
  else ret save_path.

(** [convert_files_to_pdf]. *)
Definition convert_files_to_pdf `{Collaborators}
  (directory save_path : PathLike) (image_dpi : Z) : M Path :=
  let directory := ensure_path directory in
  let save_path := ensure_path save_path in
  save_path <- resolve_save_path directory save_path ;;
  let pdf_writer := PdfWriter_new in
  input_files <- get_input_files (PPath directory) ;;
  pdf_writer <- add_files image_dpi pdf_writer input_files ;;
  PathIO.write_wb save_path (PdfWriter_serialize pdf_writer) ;;;
  ret save_path.

(** The arguments as [parser.parse_args()] returns them; [--dpi] defaults
    to 300.  The parsing itself, lines 97 to 105, is in front of the [try]
    statement and is not modelled. *)
Record Namespace : Type := mkArgs {
  args_input : option string;
  args_output : option string;
  args_dpi : Z
}.

Definition DEFAULT_DPI : Z := 300.

(** Truthiness of an optional argument: [None] and [''] are false. *)
Definition given (a : option string) : bool :=
  match a with
  | Some s => PyStr.truthy s
  | None => false
  end.

(** Lines 108 to 113: the two paths, from the arguments when both are given
    and not empty, from two prompts otherwise. *)
Definition read_paths (args : Namespace) : M (string * string) :=
  if given (args_input args) && given (args_output args)
  then ret (match args_input args with Some s => s | None => "" end,
            match args_output args with Some s => s | None => "" end)
  else
    input_directory <- input "Input directory Path: " ;;
    output_pdf <- input "Output PDF Path: " ;;
    ret (input_directory, output_pdf).

(** The body of the [try] statement of [main], lines 108 to 116. *)
Definition main_try `{Collaborators} (args : Namespace) : M unit :=
  paths <- read_paths args ;;
  save_path <- convert_files_to_pdf (PStr (fst paths)) (PStr (snd paths))
                 (args_dpi args) ;;
  print ("PDF created successfully: " ++ Pathlib.str save_path).

(** [try: body except Exception as e: handler(e)]: an exception that is not
    an instance of [Exception] passes through. *)
Definition try_except_Exception {A} (body : M A) (handler : exn -> M A) : M A :=
  fun w =>
    match body w with
    | (Ok a, w') => (Ok a, w')
    | (Raise e, w') =>
        if is_Exception e then handler e w' else (Raise e, w')
    end.

(** [main], after the arguments are parsed. *)
Definition main `{Collaborators} (args : Namespace) : M unit :=
  try_except_Exception (main_try args)
    (fun e => print ("An error occurred: " ++ exn_str e)).

(* ================================================================== *)
(** * Vocabulary of the statements *)
(* ================================================================== *)

(** The text in front of the name in [str] of a child of [d]. *)
Definition dir_prefix (d : Path) : string :=
  root d ++ fold_right (fun t acc => t ++ "/" ++ acc) "" (tail d).

(** [a] is not after [b] for the comparison [lt]. *)
Definition not_after {A} (lt : A -> A -> bool) (a b : A) : Prop := lt b a = false.

(** The world after one more access is recorded. *)
Definition logged (e : event) (w : world) : world :=
  mkWorld (w_fs w) (w_log w ++ [e]) (w_stdin w) (w_stdout w).

(** The world with another file system. *)
Definition with_fs (fs : filesystem) (w : world) : world :=
  mkWorld fs (w_log w) (w_stdin w) (w_stdout w).

(** The world after [print(s)]. *)
Definition printed (s : string) (w : world) : world :=
  mkWorld (w_fs w) (w_log w) (w_stdin w) (w_stdout w ++ [s ++ String "010" ""]).

(** The access that the assembler makes to an input file. *)
Definition access (file : Path) : event :=
  if String.eqb (PyStr.lower (Pathlib.suffix file)) ".pdf"
  then EvPdfOpen (Pathlib.str file)
  else EvImageOpen (Pathlib.str file).

Definition is_write (e : event) : bool :=
  match e with EvOpenWb _ => true | _ => false end.

(** No access of [evs] opens a file for writing. *)
Definition only_reads (evs : list event) : Prop :=
  forallb (fun e => negb (is_write e)) evs = true.

(** What the specification asks of the collaborators: what the encoder
    writes for an image, when it returns, is a document of one page; and a
    document that the writer serializes reads back as the pages it was
    given. *)
Definition encodes_one_page (L : Collaborators) : Prop :=
  forall img dpi encoded,
    Image_encode_pdf img dpi = Ok encoded ->
    exists p, PdfReader_parse encoded = Ok [p].

Definition serialize_roundtrip (L : Collaborators) : Prop :=
  forall ps, PdfReader_parse (PdfWriter_serialize ps) = Ok ps.

(** The pages that an input file gives to the output document: all the
    pages of a PDF, in its order; for any other file the first page of the
    document that the rasterizer makes of it. *)
Inductive contributes `{Collaborators} (fs : filesystem) (dpi : Z) (file : Path)
  : list page -> Prop :=
| contributes_pdf (data : bytes) (pages : list page) :
    PyStr.lower (Pathlib.suffix file) = ".pdf" ->
    OS.read fs (Pathlib.str file) = Ok data ->
    PdfReader_parse data = Ok pages ->
    contributes fs dpi file pages
| contributes_image (data encoded : bytes) (img : image)
    (p : page) (rest : list page) :
    PyStr.lower (Pathlib.suffix file) <> ".pdf" ->
    OS.read fs (Pathlib.str file) = Ok data ->
    Image_decode data = Ok img ->
    Image_encode_pdf (Image_convert img "RGB") dpi = Ok encoded ->
    PdfReader_parse encoded = Ok (p :: rest) ->
    contributes fs dpi file [p].

(** The world after several more accesses are recorded. *)
Definition logged_all (evs : list event) (w : world) : world :=
  mkWorld (w_fs w) (w_log w ++ evs) (w_stdin w) (w_stdout w).

(** The save path that lines 73 to 76 arrive at. *)
Definition final_path (fs : filesystem) (directory save_path : Path) : Path :=
  if OS.isdir fs (Pathlib.str save_path)
  then Pathlib.truediv save_path
         (Pathlib.name directory ++ "_combined_output.pdf")
  else save_path.


(** A small instance of the collaborators, to run the program on: a
    document is the byte [P] followed by one byte per page, an image file
    the byte [I] followed by its pixels; the page made from an image is its
    first pixel.  As PIL does, the encoder divides the size of the image by
    the resolution as a float: it raises [ZeroDivisionError] at the
    resolution 0 and [OverflowError] at a resolution too large for a
    float. *)
Definition toy : Collaborators := {|
  image := bytes;
  page := Byte.byte;
  Image_decode := fun data =>
    match data with
    | Byte.x49 :: px => Ok px
    | _ => Raise (mkExn UnidentifiedImageError "cannot identify image file")
    end;
  Image_convert := fun img _ => img;
  Image_encode_pdf := fun img dpi =>
    if dpi =? 0
    then Raise (mkExn ZeroDivisionError "float division by zero")
    else if 2 ^ 1024 - 2 ^ 970 <=? Z.abs dpi
    then Raise (mkExn OverflowError "int too large to convert to float")
    else Ok [Byte.x50; hd Byte.x00 img];
  PdfReader_parse := fun data =>
    match data with
    | Byte.x50 :: ps => Ok ps
    | _ => Raise (mkExn PdfReadError "Stream has ended unexpectedly")
    end;
  PdfWriter_serialize := fun ps => Byte.x50 :: ps
|}.

(** A sample tree, with the working directory at its root. *)
Definition sample_fs : filesystem :=
  mkFs (Dir [
    ("photos", Dir [
       ("b.PNG", File [Byte.x49; Byte.x07]);
       ("notes.txt", File [Byte.x68; Byte.x69]);
       ("a.pdf", File [Byte.x50; Byte.x01; Byte.x02]);
       ("c.jpeg", File [Byte.x49; Byte.x09; Byte.x0a])]);
    ("out", Dir []);
    ("single", Dir [("X.PDF", File [Byte.x50; Byte.x01; Byte.x02; Byte.x03])]);
    ("texts", Dir [("readme.txt", File [Byte.x68]); ("data.csv", File [])]);
    ("docs", Dir [("scans.pdf", Dir []); ("old", Dir [])]);
    ("broken", Dir [
       ("1.png", File [Byte.x49; Byte.x01]);
       ("2.png", File [Byte.x00; Byte.x00]);
       ("3.png", File [Byte.x49; Byte.x03]);
       ("4.png", File [Byte.x49; Byte.x04])]);
    ("result.pdf", File [Byte.x50; Byte.xff])
  ]) [].

Definition sample_world : world := mkWorld sample_fs [] [] [].

(** Whether there is a directory at an absolute list of names. *)
Definition is_dir_at (n : node) (names : list string) : bool :=
  match OS.lookup n names with
  | Some (Dir _) => true
  | _ => false
  end.

(** A second sample tree: a directory of two images, and an empty one. *)
Definition gallery_fs : filesystem :=
  mkFs (Dir [
    ("scans", Dir [
       ("page2.JPG", File [Byte.x49; Byte.x22]);
       ("page1.jpg", File [Byte.x49; Byte.x11])]);
    ("out", Dir [])
  ]) [].

Definition gallery_world : world := mkWorld gallery_fs [] [] [].

(* ================================================================== *)
(** * Facts on strings and paths *)
(* ================================================================== *)

Lemma ascii_compare_refl (a : ascii) : Ascii.compare a a = Eq.
Proof. unfold Ascii.compare. apply N.compare_refl. Qed.

Lemma string_compare_refl (s : string) : String.compare s s = Eq.
Proof.
  induction s as [|a s IH]; simpl; [reflexivity|].
  now rewrite ascii_compare_refl.
Qed.

Lemma ascii_compare_trans (c : comparison) (a b d : ascii) :
  Ascii.compare a b = c -> Ascii.compare b d = c -> Ascii.compare a d = c.
Proof.
  unfold Ascii.compare. destruct c; intros H1 H2.
  - apply N.compare_eq in H1. apply N.compare_eq in H2.
    rewrite H1, H2. apply N.compare_refl.
  - rewrite N.compare_lt_iff in *. lia.
  - rewrite N.compare_gt_iff in *. lia.
Qed.

(** [String.compare] is transitive on [Lt]. *)
Lemma string_compare_lt_trans (s t u : string) :
  String.compare s t = Lt -> String.compare t u = Lt -> String.compare s u = Lt.
Proof.
  revert t u. induction s as [|a s IH]; intros [|b t] [|d u]; simpl;
    try discriminate; try reflexivity.
  destruct (Ascii.compare a b) eqn:Hab; try discriminate;
    destruct (Ascii.compare b d) eqn:Hbd; try discriminate; intros H1 H2.
  - rewrite (ascii_compare_trans Eq a b d Hab Hbd). eauto.
  - apply Ascii.compare_eq_iff in Hab. subst b. now rewrite Hbd.
  - apply Ascii.compare_eq_iff in Hbd. subst d. now rewrite Hab.
  - now rewrite (ascii_compare_trans Lt a b d Hab Hbd).
Qed.

Lemma string_leb_trans (s t u : string) :
  String.leb s t = true -> String.leb t u = true -> String.leb s u = true.
Proof.
  unfold String.leb. intros H1 H2.
  destruct (String.compare s t) eqn:Hst; try discriminate.
  - apply String.compare_eq_iff in Hst. now subst t.
  - destruct (String.compare t u) eqn:Htu; try discriminate.
    + apply String.compare_eq_iff in Htu. subst u. now rewrite Hst.
    + now rewrite (string_compare_lt_trans s t u Hst Htu).
Qed.

Lemma string_ltb_leb (s t : string) :
  String.ltb s t = negb (String.leb t s).
Proof.
  unfold String.ltb, String.leb. rewrite (String.compare_antisym s t).
  now destruct (String.compare t s).
Qed.

(** A common prefix does not change the order of two strings. *)
Lemma string_compare_app (p a b : string) :
  String.compare (p ++ a) (p ++ b) = String.compare a b.
Proof.
  induction p as [|c p IH]; simpl; [reflexivity|].
  now rewrite ascii_compare_refl.
Qed.

Lemma string_app_assoc (a b c : string) : ((a ++ b) ++ c = a ++ (b ++ c))%string.
Proof. induction a as [|x a IH]; simpl; [reflexivity|now rewrite IH]. Qed.

Lemma list_compare_app (l : list string) (a b : string) :
  Pathlib.list_compare (l ++ [a]) (l ++ [b]) = String.compare a b.
Proof.
  induction l as [|x l IH]; simpl.
  - now destruct (String.compare a b).
  - now rewrite string_compare_refl.
Qed.

Lemma join_snoc (l : list string) (n : string) :
  PyStr.join "/" (l ++ [n]) = fold_right (fun t acc => t ++ "/" ++ acc) "" l ++ n.
Proof.
  induction l as [|x l IH]; [reflexivity|].
  change ((x :: l) ++ [n])%list with (x :: (l ++ [n]))%list.
  destruct (l ++ [n])%list as [|y r] eqn:E.
  - now destruct l.
  - change (PyStr.join "/" (x :: y :: r))
      with (x ++ "/" ++ PyStr.join "/" (y :: r)).
    rewrite IH. simpl fold_right. now rewrite !string_app_assoc.
Qed.

Lemma str_child (d : Path) (n : string) :
  Pathlib.str (Pathlib.child d n) = dir_prefix d ++ n.
Proof.
  unfold Pathlib.str, Pathlib.child, dir_prefix; simpl.
  rewrite string_app_assoc, <- join_snoc.
  destruct (root d); [|reflexivity].
  destruct (tail d ++ [n])%list eqn:E; [|reflexivity].
  now destruct (tail d).
Qed.

Lemma name_child (d : Path) (n : string) : Pathlib.name (Pathlib.child d n) = n.
Proof. unfold Pathlib.name, Pathlib.child; simpl. apply last_last. Qed.

(** Among the entries of one directory, paths compare as their names do,
    and so do their full path strings. *)
Lemma ltb_child (d : Path) (a b : string) :
  Pathlib.ltb (Pathlib.child d a) (Pathlib.child d b) = String.ltb a b.
Proof.
  unfold Pathlib.ltb, Pathlib.cparts, Pathlib.child, String.ltb; simpl.
  destruct (PyStr.truthy (root d)).
  - change (root d :: tail d ++ [a])%list with ((root d :: tail d) ++ [a])%list.
    change (root d :: tail d ++ [b])%list with ((root d :: tail d) ++ [b])%list.
    now rewrite list_compare_app.
  - now rewrite list_compare_app.
Qed.

Lemma str_child_leb (d : Path) (a b : string) :
  String.leb (Pathlib.str (Pathlib.child d a)) (Pathlib.str (Pathlib.child d b))
  = String.leb a b.
Proof. unfold String.leb. now rewrite !str_child, string_compare_app. Qed.

(* ================================================================== *)
(** * Facts on [sorted] *)
(* ================================================================== *)

Section Sorting.

Context {A : Type} (lt : A -> A -> bool).

Lemma insert_perm (x : A) (l : list A) : Permutation (insert lt x l) (x :: l).
Proof.
  induction l as [|y l IH]; simpl; [reflexivity|].
  destruct (lt y x); [|reflexivity].
  rewrite IH. apply perm_swap.
Qed.

Lemma sorted_perm (l : list A) : Permutation (sorted lt l) l.
Proof.
  induction l as [|x l IH]; simpl; [reflexivity|].
  rewrite insert_perm. now constructor.
Qed.

(** [sorted] commutes with a map that keeps the order. *)
Lemma sorted_map {B : Type} (lt' : B -> B -> bool) (g : A -> B) (l : list A) :
  (forall x y, lt' (g x) (g y) = lt x y) ->
  sorted lt' (map g l) = map g (sorted lt l).
Proof.
  intros Hg.
  assert (Hins : forall x m, insert lt' (g x) (map g m) = map g (insert lt x m)).
  { intros x m. induction m as [|y m IH]; simpl; [reflexivity|].
    rewrite Hg. destruct (lt y x); simpl; [now rewrite IH|reflexivity]. }
  induction l as [|x l IH]; simpl; [reflexivity|].
  now rewrite IH, Hins.
Qed.

Hypothesis lt_asym : forall a b, lt a b = true -> lt b a = false.
Hypothesis not_after_trans :
  forall a b c, not_after lt a b -> not_after lt b c -> not_after lt a c.

Lemma insert_sorted (x : A) (l : list A) :
  StronglySorted (not_after lt) l -> StronglySorted (not_after lt) (insert lt x l).
Proof.
  induction 1 as [|y l Hs IH Hall]; simpl.
  - repeat constructor.
  - destruct (lt y x) eqn:Hyx.
    + constructor; [exact IH|].
      rewrite insert_perm.
      constructor; [now apply lt_asym|exact Hall].
    + constructor; [now constructor|].
      constructor; [exact Hyx|].
      eapply Forall_impl; [|exact Hall].
      intros z Hz. now apply (not_after_trans x y z).
Qed.

Lemma sorted_StronglySorted (l : list A) :
  StronglySorted (not_after lt) (sorted lt l).
Proof.
  induction l as [|x l IH]; simpl; [constructor|now apply insert_sorted].
Qed.

End Sorting.

(** Two sorted lists with the same elements are the same list, when no two
    distinct elements are each before the other. *)
Lemma StronglySorted_perm_eq {A} (R : A -> A -> Prop) (l1 l2 : list A) :
  (forall x y, R x y -> R y x -> x = y) ->
  StronglySorted R l1 -> StronglySorted R l2 -> Permutation l1 l2 -> l1 = l2.
Proof.
  intros Hanti H1. revert l2.
  induction H1 as [|a l1 Hs1 IH Ha]; intros l2 H2 Hp.
  - now apply Permutation_nil in Hp.
  - destruct H2 as [|b l2 Hs2 Hb].
    + symmetry in Hp. now apply Permutation_nil in Hp.
    + assert (a = b) as ->.
      { assert (In a (b :: l2)) as [->|Hin2]
          by (eapply Permutation_in; [exact Hp|now left]); [reflexivity|].
        assert (In b (a :: l1)) as [->|Hin1]
          by (eapply Permutation_in; [symmetry; exact Hp|now left]);
          [reflexivity|].
        rewrite Forall_forall in Ha, Hb. apply Hanti; auto. }
      f_equal. apply IH; [exact Hs2|]. now apply Permutation_cons_inv in Hp.
Qed.

Lemma filter_perm {A} (f : A -> bool) (l l' : list A) :
  Permutation l l' -> Permutation (filter f l) (filter f l').
Proof.
  induction 1 as [|x l l' Hp IH|x y l|l l' l'' H1 IH1 H2 IH2]; simpl.
  - constructor.
  - destruct (f x); [now constructor|exact IH].
  - destruct (f x), (f y); try reflexivity. apply perm_swap.
  - now rewrite IH1.
Qed.

Lemma filter_map_comm {A B} (f : B -> bool) (g : A -> B) (l : list A) :
  filter f (map g l) = map g (filter (fun x => f (g x)) l).
Proof.
  induction l as [|x l IH]; simpl; [reflexivity|].
  rewrite IH. now destruct (f (g x)).
Qed.

(** Sorting names with [<] on strings gives an ascending list. *)
Lemma sorted_names_ascending (l : list string) :
  StronglySorted (fun a b => String.leb a b = true) (sorted String.ltb l).
Proof.
  assert (Heq : forall a b, not_after String.ltb a b <-> String.leb a b = true).
  { intros a b. unfold not_after. rewrite string_ltb_leb.
    now destruct (String.leb a b). }
  assert (H : StronglySorted (not_after String.ltb) (sorted String.ltb l)).
  { apply sorted_StronglySorted.
    - intros a b Hab. rewrite string_ltb_leb in *.
      destruct (String.leb_total a b) as [H|H]; rewrite H in *;
        [reflexivity|discriminate].
    - intros a b c. rewrite !Heq. apply string_leb_trans. }
  induction H as [|a m Hs IH Ha]; constructor; [exact IH|].
  eapply Forall_impl; [|exact Ha]. intros b. apply Heq.
Qed.

(* ================================================================== *)
(** * The directory scanner *)
(* ================================================================== *)

Lemma StronglySorted_map {A B} (R : B -> B -> Prop) (g : A -> B) (l : list A) :
  StronglySorted (fun a b => R (g a) (g b)) l -> StronglySorted R (map g l).
Proof.
  induction 1 as [|a l Hs IH Ha]; simpl; constructor; [exact IH|].
  rewrite Forall_map. exact Ha.
Qed.

(** What [get_input_files] computes, in terms of the names that the
    operating system lists. *)
Lemma get_input_files_eq (directory : PathLike) (w : world) :
  let d := ensure_path directory in
  get_input_files directory w =
  match OS.listdir (w_fs w) (Pathlib.str d) with
  | Ok names =>
      (Ok (map (Pathlib.child d)
             (sorted String.ltb
                (filter (fun n => has_valid_extension (Pathlib.child d n)) names))),
       logged (EvListdir (Pathlib.str d)) w)
  | Raise e => (Raise e, logged (EvListdir (Pathlib.str d)) w)
  end.
Proof.
  unfold get_input_files, PathIO.iterdir, bind, log, get_fs, lift, ret; simpl.
  destruct (OS.listdir (w_fs w) (Pathlib.str (ensure_path directory)));
    [|reflexivity].
  rewrite filter_map_comm.
  rewrite (sorted_map String.ltb Pathlib.ltb); [reflexivity|].
  intros x y. apply ltb_child.
Qed.

(** C2. For a directory that can be listed, [get_input_files] returns
    exactly the immediate entries whose extension, lower-cased, is one of
    [.png], [.jpeg], [.jpg], [.pdf] (each entry as often as it is listed),
    in ascending lexicographic order of the full path strings, and the
    result is the same for any other order in which the entries are
    listed. *)
Theorem get_input_files_exact_sorted
  (w : world) (directory : PathLike) (names : list string) :
  OS.listdir (w_fs w) (Pathlib.str (ensure_path directory)) = Ok names ->
  exists files w',
    get_input_files directory w = (Ok files, w') /\
    Permutation files
      (filter (fun p => PyStr.mem (PyStr.lower (Pathlib.suffix p))
                          [".png"; ".jpeg"; ".jpg"; ".pdf"])
              (map (Pathlib.child (ensure_path directory)) names)) /\
    StronglySorted
      (fun p q => String.leb (Pathlib.str p) (Pathlib.str q) = true) files /\
    (forall w2 names2,
        OS.listdir (w_fs w2) (Pathlib.str (ensure_path directory)) = Ok names2 ->
        Permutation names names2 ->
        fst (get_input_files directory w2) = Ok files).
Proof.
  intros Hls. pose proof (get_input_files_eq directory w) as Heq.
  cbv zeta in Heq. rewrite Hls in Heq.
  eexists _, _. split; [exact Heq|]. split; [|split].
  - change (fun p => PyStr.mem (PyStr.lower (Pathlib.suffix p))
                       [".png"; ".jpeg"; ".jpg"; ".pdf"])
      with has_valid_extension.
    rewrite filter_map_comm. apply Permutation_map. apply sorted_perm.
  - apply StronglySorted_map.
    generalize (sorted_names_ascending
      (filter (fun n => has_valid_extension
                          (Pathlib.child (ensure_path directory) n)) names)).
    apply StronglySorted_ind; [constructor|].
    intros a l Hs IH Ha. constructor; [exact IH|].
    eapply Forall_impl; [|exact Ha]. intros b Hab. simpl.
    now rewrite str_child_leb.
  - intros w2 names2 Hls2 Hp.
    rewrite (get_input_files_eq directory w2). cbv zeta. rewrite Hls2. simpl.
    do 2 f_equal.
    apply (StronglySorted_perm_eq (fun a b => String.leb a b = true)).
    + intros x y. apply String.leb_antisym.
    + apply sorted_names_ascending.
    + apply sorted_names_ascending.
    + rewrite !sorted_perm. apply filter_perm. now symmetry.
Qed.

(** The scanner on the sample directory [photos], whose entries are listed
    as [b.PNG], [notes.txt], [a.pdf], [c.jpeg]. *)
Lemma get_input_files_exact_sorted_witness :
  exists files w',
    get_input_files (PStr "photos") sample_world = (Ok files, w') /\
    Permutation files
      (filter (fun p => PyStr.mem (PyStr.lower (Pathlib.suffix p))
                          [".png"; ".jpeg"; ".jpg"; ".pdf"])
              (map (Pathlib.child (ensure_path (PStr "photos")))
                   ["b.PNG"; "notes.txt"; "a.pdf"; "c.jpeg"])) /\
    StronglySorted
      (fun p q => String.leb (Pathlib.str p) (Pathlib.str q) = true) files /\
    (forall w2 names2,
        OS.listdir (w_fs w2) (Pathlib.str (ensure_path (PStr "photos")))
        = Ok names2 ->
        Permutation ["b.PNG"; "notes.txt"; "a.pdf"; "c.jpeg"] names2 ->
        fst (get_input_files (PStr "photos") w2) = Ok files).
Proof.
  apply (get_input_files_exact_sorted sample_world (PStr "photos")).
  reflexivity.
Defined.

Example get_input_files_photos :
  fst (get_input_files (PStr "photos") sample_world)
  = Ok [mkPath "" ["photos"; "a.pdf"]; mkPath "" ["photos"; "b.PNG"];
        mkPath "" ["photos"; "c.jpeg"]].
Proof. reflexivity. Qed.






(* ================================================================== *)
(** * Facts on the file system *)
(* ================================================================== *)

Lemma assoc_replace (x : string) (c : node) (es : list (string * node)) :
  OS.assoc x es <> None -> OS.assoc x (OS.replace x c es) = Some c.
Proof.
  induction es as [|[k n] es IH]; simpl; [congruence|].
  destruct (String.eqb x k) eqn:E; simpl; rewrite E; auto.
Qed.

Lemma assoc_replace_other (x y : string) (c : node) (es : list (string * node)) :
  y <> x -> OS.assoc y (OS.replace x c es) = OS.assoc y es.
Proof.
  intros Hne. induction es as [|[k n] es IH]; simpl; [reflexivity|].
  destruct (String.eqb x k) eqn:E; simpl.
  - apply String.eqb_eq in E. subst k.
    destruct (String.eqb y x) eqn:E'; [|reflexivity].
    apply String.eqb_eq in E'. contradiction.
  - now rewrite IH.
Qed.

Lemma assoc_app (y : string) (es es' : list (string * node)) :
  OS.assoc y (es ++ es') =
  match OS.assoc y es with Some c => Some c | None => OS.assoc y es' end.
Proof.
  induction es as [|[k n] es IH]; simpl; [reflexivity|].
  now destruct (String.eqb y k).
Qed.

(** After [store], the file is there with the stored contents. *)
Lemma lookup_store (names : list string) (data : bytes) (n n' : node) :
  OS.store n names data = Some n' -> OS.lookup n' names = Some (File data).
Proof.
  revert n n'. induction names as [|x rest IH]; intros n n'; simpl.
  - destruct n; intros [= <-]; reflexivity.
  - destruct n as [|es]; [discriminate|].
    destruct (OS.assoc x es) as [c|] eqn:Hx.
    + destruct (OS.store c rest data) as [c'|] eqn:Hs; [|discriminate].
      intros [= <-]. rewrite assoc_replace by congruence. now apply (IH c).
    + destruct rest; [|discriminate]. intros [= <-].
      rewrite assoc_app, Hx. simpl. now rewrite String.eqb_refl.
Qed.

(** [store] leaves a directory where there was one. *)
Lemma store_keeps_dirs (names : list string) (data : bytes) (n n' : node) :
  OS.store n names data = Some n' ->
  forall cur es, OS.lookup n cur = Some (Dir es) ->
                 exists es', OS.lookup n' cur = Some (Dir es').
Proof.
  revert n n'. induction names as [|x rest IH]; intros n n'; simpl.
  - destruct n; [|discriminate]. intros _ [|y cur] es; simpl; discriminate.
  - destruct n as [|es0]; [discriminate|].
    destruct (OS.assoc x es0) as [c|] eqn:Hx.
    + destruct (OS.store c rest data) as [c'|] eqn:Hs; [|discriminate].
      intros [= <-] [|y cur] es; simpl; [eauto|].
      destruct (String.eqb y x) eqn:Eyx.
      * apply String.eqb_eq in Eyx. subst y.
        rewrite Hx, assoc_replace by congruence. now apply (IH c).
      * apply String.eqb_neq in Eyx.
        rewrite assoc_replace_other by exact Eyx.
        destruct (OS.assoc y es0); [eauto|discriminate].
    + destruct rest; [|discriminate].
      intros [= <-] [|y cur] es; simpl; [eauto|].
      rewrite assoc_app. destruct (OS.assoc y es0); [eauto|discriminate].
Qed.

Lemma walk_keeps (rt rt' : node) (comps cur : list string) (r : list string) :
  (forall cur es, OS.lookup rt cur = Some (Dir es) ->
                  exists es', OS.lookup rt' cur = Some (Dir es')) ->
  OS.walk rt cur comps = Some r -> OS.walk rt' cur comps = Some r.
Proof.
  intros Hk. revert cur. induction comps as [|c rest IH]; intros cur; simpl;
    [auto|].
  destruct (OS.lookup rt cur) as [[|es]|] eqn:Hl; try discriminate.
  destruct (Hk cur es Hl) as [es' ->]. apply IH.
Qed.

Lemma store_existing (names : list string) (data old : bytes) (n : node) :
  OS.lookup n names = Some (File old) ->
  exists n', OS.store n names data = Some n'.
Proof.
  revert n. induction names as [|x rest IH]; intros n; simpl.
  - intros [= ->]. eauto.
  - destruct n as [|es]; [discriminate|].
    destruct (OS.assoc x es) as [c|]; [|discriminate].
    intros Hl. destruct (IH c Hl) as [c' ->]. eauto.
Qed.

(** What was written to a file opened with ["wb"] is what is read from the
    same path afterwards. *)
Lemma read_after_write (fs fs1 : filesystem) (s : string)
  (h : list string) (data : bytes) :
  OS.open_wb fs s = Ok (h, fs1) ->
  OS.read (OS.write fs1 h data) s = Ok data.
Proof.
  unfold OS.open_wb, OS.read, OS.stat, OS.write, OS.namei.
  destruct (OS.walk (fs_root fs) _ (tail (Pathlib.of_str s)))
    as [names|] eqn:Hw; [|discriminate].
  destruct (OS.store (fs_root fs) names []) as [rt1|] eqn:Hs1;
    [|destruct (OS.lookup (fs_root fs) names) as [[|?]|]; discriminate].
  intros Hopen.
  assert (h = names /\ fs1 = mkFs rt1 (fs_cwd fs)) as [-> ->]
    by (destruct (OS.lookup (fs_root fs) names) as [[|?]|];
        inversion Hopen; auto).
  clear Hopen. simpl.
  rewrite (lookup_store _ _ _ _ Hs1).
  destruct (store_existing names ([] ++ data)%list [] rt1 (lookup_store _ _ _ _ Hs1))
    as [rt2 Hs2].
  rewrite Hs2. simpl.
  rewrite (walk_keeps (fs_root fs) rt2 _ _ names); [|  |exact Hw].
  - now rewrite (lookup_store _ _ _ _ Hs2).
  - intros cur es Hl.
    destruct (store_keeps_dirs _ _ _ _ Hs1 cur es Hl) as [es1 Hl1].
    exact (store_keeps_dirs _ _ _ _ Hs2 cur es1 Hl1).
Qed.

(* ================================================================== *)
(** * The assembler *)
(* ================================================================== *)

Section Assembler.

Context {L : Collaborators}.

Lemma fold_add_page (pages : list page) (acc : PdfWriter) :
  fold_left add_page pages acc = (acc ++ pages)%list.
Proof.
  revert acc. induction pages as [|p pages IH]; intros acc; simpl.
  - now rewrite app_nil_r.
  - rewrite IH. unfold add_page. now rewrite <- app_assoc.
Qed.

Lemma logged_all_nil (w : world) : logged_all [] w = w.
Proof. destruct w. unfold logged_all; simpl. now rewrite app_nil_r. Qed.

Lemma logged_all_cons (e : event) (evs : list event) (w : world) :
  logged_all evs (logged e w) = logged_all (e :: evs) w.
Proof. unfold logged_all, logged; simpl. now rewrite <- app_assoc. Qed.

(** The PDF branch of the loop body. *)
Lemma add_file_pdf (dpi : Z) (acc : PdfWriter) (file : Path) (w : world) :
  PyStr.lower (Pathlib.suffix file) = ".pdf" ->
  add_file dpi acc file w =
  match OS.read (w_fs w) (Pathlib.str file) with
  | Ok data =>
      match PdfReader_parse data with
      | Ok pages => (Ok (acc ++ pages)%list, logged (EvPdfOpen (Pathlib.str file)) w)
      | Raise e => (Raise e, logged (EvPdfOpen (Pathlib.str file)) w)
      end
  | Raise e => (Raise e, logged (EvPdfOpen (Pathlib.str file)) w)
  end.
Proof.
  intros Hs. unfold add_file. rewrite Hs. simpl.
  unfold PdfReader_path, bind, log, get_fs, lift, ret; simpl.
  destruct (OS.read (w_fs w) (Pathlib.str file)); [|reflexivity].
  destruct (PdfReader_parse a); [|reflexivity].
  now rewrite fold_add_page.
Qed.

Lemma BytesIO_write_new (data : bytes) :
  BytesIO_write BytesIO_new data = mkBytesIO data (List.length data).
Proof.
  unfold BytesIO_write, BytesIO_new; simpl.
  now rewrite skipn_nil, app_nil_r.
Qed.

(** [convert_image_to_pdf], step by step. *)
Lemma convert_image_to_pdf_eq (image_path : PathLike) (dpi : Z) (w : world) :
  let p := ensure_path image_path in
  convert_image_to_pdf image_path dpi w =
  match OS.read (w_fs w) (Pathlib.str p) with
  | Ok data =>
      match Image_decode data with
      | Ok img =>
          match Image_encode_pdf (Image_convert img "RGB") dpi with
          | Ok encoded =>
              (Ok (mkBytesIO encoded 0), logged (EvImageOpen (Pathlib.str p)) w)
          | Raise e => (Raise e, logged (EvImageOpen (Pathlib.str p)) w)
          end
      | Raise e => (Raise e, logged (EvImageOpen (Pathlib.str p)) w)
      end
  | Raise e => (Raise e, logged (EvImageOpen (Pathlib.str p)) w)
  end.
Proof.
  unfold convert_image_to_pdf, Image_open, bind, log, get_fs, lift, ret;
    cbv zeta; cbn [w_fs].
  destruct (OS.read (w_fs w) (Pathlib.str (ensure_path image_path)));
    [|reflexivity].
  destruct (Image_decode a); [|reflexivity].
  destruct (Image_encode_pdf _ dpi); [|reflexivity].
  rewrite BytesIO_write_new. reflexivity.
Qed.

(** The image branch of the loop body. *)
Lemma add_file_image (dpi : Z) (acc : PdfWriter) (file : Path) (w : world) :
  PyStr.lower (Pathlib.suffix file) <> ".pdf" ->
  add_file dpi acc file w =
  match OS.read (w_fs w) (Pathlib.str file) with
  | Ok data =>
      match Image_decode data with
      | Ok img =>
          match Image_encode_pdf (Image_convert img "RGB") dpi with
          | Ok encoded =>
              match PdfReader_parse encoded with
              | Ok (p :: _) =>
                  (Ok (acc ++ [p])%list,
                   logged (EvImageOpen (Pathlib.str file)) w)
              | Ok [] =>
                  (Raise (mkExn IndexError "sequence index out of range"),
                   logged (EvImageOpen (Pathlib.str file)) w)
              | Raise e => (Raise e, logged (EvImageOpen (Pathlib.str file)) w)
              end
          | Raise e => (Raise e, logged (EvImageOpen (Pathlib.str file)) w)
          end
      | Raise e => (Raise e, logged (EvImageOpen (Pathlib.str file)) w)
      end
  | Raise e => (Raise e, logged (EvImageOpen (Pathlib.str file)) w)
  end.
Proof.
  intros Hs. apply String.eqb_neq in Hs. unfold add_file. rewrite Hs.
  unfold bind at 1. rewrite convert_image_to_pdf_eq. cbv zeta.
  change (ensure_path (PPath file)) with file.
  destruct (OS.read (w_fs w) (Pathlib.str file)); [|reflexivity].
  destruct (Image_decode a); [|reflexivity].
  destruct (Image_encode_pdf _ dpi); [|reflexivity].
  unfold PdfReader_stream, pages_first, bind, lift, ret, raise, add_page;
    cbn [getvalue].
  destruct (PdfReader_parse _) as [[|p ps]|]; reflexivity.
Qed.

(** The loop body makes one access and changes nothing else. *)
Lemma add_file_world (dpi : Z) (acc : PdfWriter) (file : Path) (w : world) :
  snd (add_file dpi acc file w) = logged (access file) w.
Proof.
  unfold access.
  destruct (String.eqb (PyStr.lower (Pathlib.suffix file)) ".pdf") eqn:E.
  - apply String.eqb_eq in E. rewrite (add_file_pdf _ _ _ _ E).
    destruct (OS.read _ _); [|reflexivity].
    now destruct (PdfReader_parse _).
  - apply String.eqb_neq in E. rewrite (add_file_image _ _ _ _ E).
    destruct (OS.read _ _); [|reflexivity].
    destruct (Image_decode _); [|reflexivity].
    destruct (Image_encode_pdf _ _); [|reflexivity].
    now destruct (PdfReader_parse _) as [[|? ?]|].
Qed.

Lemma add_file_ok (dpi : Z) (acc : PdfWriter) (file : Path) (w : world)
  (ps : list page) :
  contributes (w_fs w) dpi file ps ->
  add_file dpi acc file w = (Ok (acc ++ ps)%list, logged (access file) w).
Proof.
  unfold access.
  intros [data pages Hs Hr Hp|data encoded img p rest Hs Hr Hd He Hp].
  - rewrite (add_file_pdf _ _ _ _ Hs), Hr, Hp, Hs. reflexivity.
  - rewrite (add_file_image _ _ _ _ Hs), Hr, Hd, He, Hp.
    apply String.eqb_neq in Hs. now rewrite Hs.
Qed.

(** The loop appends, file after file, what each file contributes. *)
Lemma add_files_ok (dpi : Z) (files : list Path) (pss : list (list page)) :
  forall (acc : PdfWriter) (w : world),
  Forall2 (contributes (w_fs w) dpi) files pss ->
  add_files dpi acc files w
  = (Ok (acc ++ List.concat pss)%list, logged_all (map access files) w).
Proof.
  revert pss. induction files as [|f files IH]; intros pss acc w H;
    inversion H as [|? ps ? pss' Hf Hrest]; subst; simpl.
  - now rewrite app_nil_r, logged_all_nil.
  - unfold bind. rewrite (add_file_ok dpi acc f w ps Hf).
    rewrite (IH pss' (acc ++ ps)%list (logged (access f) w) Hrest).
    now rewrite logged_all_cons, <- app_assoc.
Qed.

(** Whatever happens in the loop, it only reads: the accesses it makes are
    those to a prefix of the files, and nothing else changes. *)
Lemma add_files_world (dpi : Z) (files : list Path) :
  forall (acc : PdfWriter) (w : world),
  exists k, snd (add_files dpi acc files w)
            = logged_all (map access (firstn k files)) w.
Proof.
  induction files as [|f files IH]; intros acc w; simpl.
  - exists O. now rewrite logged_all_nil.
  - unfold bind. pose proof (add_file_world dpi acc f w) as Hw.
    destruct (add_file dpi acc f w) as [[acc'|e] w1]; simpl in Hw; subst w1.
    + destruct (IH acc' (logged (access f) w)) as [k Hk].
      exists (S k). rewrite Hk. simpl. apply logged_all_cons.
    + exists 1%nat. simpl. unfold logged, logged_all. reflexivity.
Qed.

(** A file on which the loop body raises makes the loop raise. *)
Lemma add_files_raise (dpi : Z) (files : list Path) (f : Path) :
  In f files ->
  forall (acc : PdfWriter) (w : world),
  (forall acc' evs, exists e,
      fst (add_file dpi acc' f (logged_all evs w)) = Raise e) ->
  exists e, fst (add_files dpi acc files w) = Raise e.
Proof.
  induction files as [|g files IH]; intros Hin acc w Hf; [contradiction|].
  simpl. unfold bind.
  pose proof (add_file_world dpi acc g w) as Hw.
  destruct (add_file dpi acc g w) as [[acc'|e] w1] eqn:Hg;
    simpl in Hw; subst w1; [|now exists e].
  destruct Hin as [->|Hin].
  - destruct (Hf acc []) as [e He]. rewrite logged_all_nil, Hg in He.
    discriminate.
  - apply (IH Hin). intros acc'' evs.
    destruct (Hf acc'' (access g :: evs)) as [e He]. exists e.
    now rewrite logged_all_cons.
Qed.

Lemma write_wb_eq (p : Path) (data : bytes) (w : world) :
  PathIO.write_wb p data w =
  match OS.open_wb (w_fs w) (Pathlib.str p) with
  | Ok (h, fs1) =>
      (Ok tt, with_fs (OS.write fs1 h data) (logged (EvOpenWb (Pathlib.str p)) w))
  | Raise e => (Raise e, logged (EvOpenWb (Pathlib.str p)) w)
  end.
Proof.
  unfold PathIO.write_wb, bind, log, get_fs, put_fs, lift, ret; simpl.
  now destruct (OS.open_wb (w_fs w) (Pathlib.str p)) as [[h fs1]|].
Qed.

Lemma resolve_save_path_eq (d s : Path) (w : world) :
  resolve_save_path d s w = (Ok (final_path (w_fs w) d s), w).
Proof.
  unfold resolve_save_path, final_path, PathIO.is_dir, bind, get_fs, ret; simpl.
  now destruct (OS.isdir (w_fs w) (Pathlib.str s)).
Qed.

(** [convert_files_to_pdf], step by step. *)
Lemma convert_files_to_pdf_eq (directory save_path : PathLike) (dpi : Z)
  (w : world) :
  let final := final_path (w_fs w) (ensure_path directory) (ensure_path save_path) in
  convert_files_to_pdf directory save_path dpi w =
  match get_input_files directory w with
  | (Ok files, w1) =>
      match add_files dpi PdfWriter_new files w1 with
      | (Ok pages, w2) =>
          match PathIO.write_wb final (PdfWriter_serialize pages) w2 with
          | (Ok _, w3) => (Ok final, w3)
          | (Raise e, w3) => (Raise e, w3)
          end
      | (Raise e, w2) => (Raise e, w2)
      end
  | (Raise e, w1) => (Raise e, w1)
  end.
Proof.
  unfold convert_files_to_pdf. cbv zeta. unfold bind at 1.
  rewrite resolve_save_path_eq. unfold bind.
  change (get_input_files (PPath (ensure_path directory)) w)
    with (get_input_files directory w).
  destruct (get_input_files directory w) as [[files|e] w1]; [|reflexivity].
  destruct (add_files dpi PdfWriter_new files w1) as [[pages|e] w2];
    [|reflexivity].
  destruct (PathIO.write_wb _ _ w2) as [[?|e] w3]; reflexivity.
Qed.

Lemma get_input_files_world (directory : PathLike) (w : world) :
  snd (get_input_files directory w)
  = logged (EvListdir (Pathlib.str (ensure_path directory))) w.
Proof.
  pose proof (get_input_files_eq directory w) as H. cbv zeta in H.
  rewrite H. now destruct (OS.listdir _ _).
Qed.

(** When the scan succeeds, every file contributes its pages and the save
    path can be opened, the run returns the save path and the file there
    holds the serialized concatenation of the contributions. *)
Lemma convert_files_to_pdf_ok (w : world) (directory save_path : PathLike)
  (dpi : Z) (files : list Path) (pss : list (list page))
  (h : list string) (fs1 : filesystem) :
  fst (get_input_files directory w) = Ok files ->
  Forall2 (contributes (w_fs w) dpi) files pss ->
  OS.open_wb (w_fs w)
    (Pathlib.str (final_path (w_fs w) (ensure_path directory)
                    (ensure_path save_path))) = Ok (h, fs1) ->
  exists w',
    convert_files_to_pdf directory save_path dpi w
    = (Ok (final_path (w_fs w) (ensure_path directory) (ensure_path save_path)),
       w') /\
    OS.read (w_fs w')
      (Pathlib.str (final_path (w_fs w) (ensure_path directory)
                      (ensure_path save_path)))
    = Ok (PdfWriter_serialize (List.concat pss)).
Proof.
  intros Hscan Hall Hopen.
  pose proof (convert_files_to_pdf_eq directory save_path dpi w) as Heq.
  cbv zeta in Heq. rewrite Heq. clear Heq.
  pose proof (get_input_files_world directory w) as Hw1.
  destruct (get_input_files directory w) as [r w1]. simpl in Hscan, Hw1.
  subst r w1.
  rewrite (add_files_ok dpi files pss PdfWriter_new (logged _ w) Hall).
  rewrite write_wb_eq. cbn [w_fs logged_all logged].
  rewrite Hopen. eexists. split; [reflexivity|].
  cbn [w_fs with_fs]. now apply (read_after_write (w_fs w)).
Qed.

(** Conversely, what the loop body appends is what the file contributes. *)
Lemma add_file_inv (dpi : Z) (acc acc' : PdfWriter) (file : Path) (w w' : world) :
  add_file dpi acc file w = (Ok acc', w') ->
  exists ps, contributes (w_fs w) dpi file ps /\ acc' = (acc ++ ps)%list.
Proof.
  destruct (String.eqb (PyStr.lower (Pathlib.suffix file)) ".pdf") eqn:E.
  - apply String.eqb_eq in E. rewrite (add_file_pdf _ _ _ _ E).
    destruct (OS.read _ _) as [data|] eqn:Hr; [|discriminate].
    destruct (PdfReader_parse data) as [pages|] eqn:Hp; [|discriminate].
    intros [= <- _]. exists pages. split; [|reflexivity].
    now apply (contributes_pdf _ _ _ data).
  - apply String.eqb_neq in E. rewrite (add_file_image _ _ _ _ E).
    destruct (OS.read _ _) as [data|] eqn:Hr; [|discriminate].
    destruct (Image_decode data) as [img|] eqn:Hd; [|discriminate].
    destruct (Image_encode_pdf _ dpi) as [encoded|] eqn:He; [|discriminate].
    destruct (PdfReader_parse _) as [[|p rest]|] eqn:Hp; try discriminate.
    intros [= <- _]. exists [p]. split; [|reflexivity].
    now apply (contributes_image _ _ _ data encoded img p rest).
Qed.

Lemma add_files_inv (dpi : Z) (files : list Path) :
  forall (acc pages : PdfWriter) (w w' : world),
  add_files dpi acc files w = (Ok pages, w') ->
  exists pss, Forall2 (contributes (w_fs w) dpi) files pss /\
              pages = (acc ++ List.concat pss)%list.
Proof.
  induction files as [|f files IH]; intros acc pages w w'; simpl.
  - intros [= <- _]. exists []. split; [constructor|]. simpl.
    now rewrite app_nil_r.
  - unfold bind. pose proof (add_file_world dpi acc f w) as Hw.
    destruct (add_file dpi acc f w) as [[acc1|e] w1] eqn:Hf; [|discriminate].
    simpl in Hw. subst w1. intros Hrest.
    destruct (add_file_inv _ _ _ _ _ _ Hf) as (ps & Hc & ->).
    destruct (IH _ _ _ _ Hrest) as (pss & Hall & ->).
    exists (ps :: pss). split; [now constructor|]. simpl.
    now rewrite app_assoc.
Qed.

(** Conversely, a run that returns has scanned the directory, every
    scanned file has contributed its pages, and the file at the returned
    path holds the serialized concatenation of the contributions. *)
Lemma convert_files_to_pdf_inv (w w' : world) (directory save_path : PathLike)
  (dpi : Z) (p : Path) :
  convert_files_to_pdf directory save_path dpi w = (Ok p, w') ->
  exists files pss,
    fst (get_input_files directory w) = Ok files /\
    Forall2 (contributes (w_fs w) dpi) files pss /\
    OS.read (w_fs w') (Pathlib.str p)
    = Ok (PdfWriter_serialize (List.concat pss)).
Proof.
  pose proof (convert_files_to_pdf_eq directory save_path dpi w) as Heq.
  cbv zeta in Heq. rewrite Heq. clear Heq.
  pose proof (get_input_files_world directory w) as Hw1.
  destruct (get_input_files directory w) as [[files|e] w1]; [|discriminate].
  simpl in Hw1. subst w1.
  destruct (add_files dpi PdfWriter_new files _) as [[pages|e] w2] eqn:Hadd;
    [|discriminate].
  destruct (add_files_world dpi files PdfWriter_new
              (logged (EvListdir (Pathlib.str (ensure_path directory))) w))
    as [k Hw2].
  rewrite Hadd in Hw2. simpl in Hw2. subst w2.
  destruct (add_files_inv _ _ _ _ _ _ Hadd) as (pss & Hall & ->).
  rewrite write_wb_eq. cbn [w_fs logged_all logged].
  destruct (OS.open_wb _ _) as [[h fs1]|e] eqn:Hopen; [|discriminate].
  intros [= <- <-]. exists files, pss. split; [reflexivity|].
  split; [exact Hall|]. cbn [w_fs with_fs].
  now apply (read_after_write (w_fs w)).
Qed.

Lemma filter_none {A} (f : A -> bool) (l : list A) :
  (forall x, In x l -> f x = false) -> filter f l = [].
Proof.
  induction l as [|x l IH]; intros H; simpl; [reflexivity|].
  rewrite (H x (or_introl eq_refl)). apply IH. intros y Hy. apply H. now right.
Qed.

End Assembler.

(* ================================================================== *)
(** * Properties of the assembler *)
(* ================================================================== *)

Section AssemblerProperties.

Context {L : Collaborators}.

(** C1. The output document holds the pages of the scanned files in the
    order of the scan.  Every run of [convert_files_to_pdf] that returns
    has written, at the path it returns, the serialization of what the
    scanned files contribute, concatenated in the order of the scan: all
    the pages of a PDF in its own order, one rasterized page for any other
    file.  And the run does return when the scan returns, every scanned
    file contributes its pages and the save path can be opened. *)
Theorem convert_files_to_pdf_page_order
  (w : world) (directory save_path : PathLike) (dpi : Z) :
  (forall p w',
      convert_files_to_pdf directory save_path dpi w = (Ok p, w') ->
      exists files pss,
        fst (get_input_files directory w) = Ok files /\
        Forall2 (contributes (w_fs w) dpi) files pss /\
        OS.read (w_fs w') (Pathlib.str p)
        = Ok (PdfWriter_serialize (List.concat pss))) /\
  (forall files pss h fs1,
      fst (get_input_files directory w) = Ok files ->
      Forall2 (contributes (w_fs w) dpi) files pss ->
      OS.open_wb (w_fs w)
        (Pathlib.str (final_path (w_fs w) (ensure_path directory)
                        (ensure_path save_path))) = Ok (h, fs1) ->
      exists w',
        convert_files_to_pdf directory save_path dpi w
        = (Ok (final_path (w_fs w) (ensure_path directory)
                 (ensure_path save_path)), w') /\
        OS.read (w_fs w')
          (Pathlib.str (final_path (w_fs w) (ensure_path directory)
                          (ensure_path save_path)))
        = Ok (PdfWriter_serialize (List.concat pss))).
Proof.
  split.
  - intros p w'. apply convert_files_to_pdf_inv.
  - intros files pss h fs1. apply convert_files_to_pdf_ok.
Qed.

(** C5. Round trip: when the scanner returns one file, a PDF whose pages
    are [pages], the document written at the save path reads back as
    exactly [pages]: the same number of pages, in the same order. *)
Theorem single_pdf_roundtrip
  (w : world) (directory save_path : PathLike) (dpi : Z)
  (file : Path) (data : bytes) (pages : list page)
  (h : list string) (fs1 : filesystem) :
  serialize_roundtrip L ->
  fst (get_input_files directory w) = Ok [file] ->
  PyStr.lower (Pathlib.suffix file) = ".pdf" ->
  OS.read (w_fs w) (Pathlib.str file) = Ok data ->
  PdfReader_parse data = Ok pages ->
  OS.open_wb (w_fs w)
    (Pathlib.str (final_path (w_fs w) (ensure_path directory)
                    (ensure_path save_path))) = Ok (h, fs1) ->
  exists w' out,
    convert_files_to_pdf directory save_path dpi w
    = (Ok (final_path (w_fs w) (ensure_path directory) (ensure_path save_path)),
       w') /\
    OS.read (w_fs w')
      (Pathlib.str (final_path (w_fs w) (ensure_path directory)
                      (ensure_path save_path))) = Ok out /\
    PdfReader_parse out = Ok pages.
Proof.
  intros Hrt Hscan Hsuf Hread Hparse Hopen.
  destruct (convert_files_to_pdf_ok w directory save_path dpi [file] [pages]
              h fs1 Hscan) as (w' & Hrun & Hout).
  - repeat constructor. now apply (contributes_pdf _ _ _ data).
  - exact Hopen.
  - exists w', (PdfWriter_serialize pages). simpl in Hout.
    rewrite app_nil_r in Hout. auto.
Qed.

(** C7. When no entry of the directory has a matching extension, the
    scanner returns the empty list, and when the save path can be opened
    [convert_files_to_pdf] returns the resolved save path without an error;
    the document written there is the serialization of no pages and reads
    back as a document of zero pages. *)
Theorem no_matching_files_zero_pages
  (w : world) (directory save_path : PathLike) (dpi : Z)
  (names : list string) (h : list string) (fs1 : filesystem) :
  serialize_roundtrip L ->
  OS.listdir (w_fs w) (Pathlib.str (ensure_path directory)) = Ok names ->
  (forall n, In n names ->
     PyStr.mem (PyStr.lower (Pathlib.suffix
                  (Pathlib.child (ensure_path directory) n)))
               [".png"; ".jpeg"; ".jpg"; ".pdf"] = false) ->
  OS.open_wb (w_fs w)
    (Pathlib.str (final_path (w_fs w) (ensure_path directory)
                    (ensure_path save_path))) = Ok (h, fs1) ->
  fst (get_input_files directory w) = Ok [] /\
  exists w',
    convert_files_to_pdf directory save_path dpi w
    = (Ok (final_path (w_fs w) (ensure_path directory) (ensure_path save_path)),
       w') /\
    OS.read (w_fs w')
      (Pathlib.str (final_path (w_fs w) (ensure_path directory)
                      (ensure_path save_path)))
    = Ok (PdfWriter_serialize []) /\
    PdfReader_parse (PdfWriter_serialize []) = Ok [].
Proof.
  intros Hrt Hls Hnone Hopen.
  assert (Hscan : fst (get_input_files directory w) = Ok []).
  { pose proof (get_input_files_eq directory w) as H. cbv zeta in H.
    rewrite H, Hls. cbn [fst].
    now rewrite (filter_none (fun n => has_valid_extension _) names Hnone). }
  split; [exact Hscan|].
  destruct (convert_files_to_pdf_ok w directory save_path dpi [] [] h fs1
              Hscan (Forall2_nil _) Hopen) as (w' & Hrun & Hout).
  exists w'. repeat split; [exact Hrun|exact Hout|apply Hrt].
Qed.

(** C3. When [save_path] names an existing directory, the resolved save
    path is [save_path / "{directory.name}_combined_output.pdf"]; this is
    the path that [convert_files_to_pdf] returns, whenever it returns. *)
Theorem save_path_in_existing_directory
  (w : world) (directory save_path : PathLike) (dpi : Z) :
  OS.isdir (w_fs w) (Pathlib.str (ensure_path save_path)) = true ->
  resolve_save_path (ensure_path directory) (ensure_path save_path) w
  = (Ok (Pathlib.truediv (ensure_path save_path)
           (Pathlib.name (ensure_path directory) ++ "_combined_output.pdf")),
     w) /\
  (fst (convert_files_to_pdf directory save_path dpi w)
   = Ok (Pathlib.truediv (ensure_path save_path)
           (Pathlib.name (ensure_path directory) ++ "_combined_output.pdf"))
   \/ exists e, fst (convert_files_to_pdf directory save_path dpi w) = Raise e).
Proof.
  intros Hdir. split.
  - rewrite resolve_save_path_eq. unfold final_path. now rewrite Hdir.
  - pose proof (convert_files_to_pdf_eq directory save_path dpi w) as Heq.
    cbv zeta in Heq. rewrite Heq. clear Heq. unfold final_path. rewrite Hdir.
    destruct (get_input_files directory w) as [[files|e] w1];
      [|right; exists e; reflexivity].
    destruct (add_files dpi PdfWriter_new files w1) as [[pages|e] w2];
      [|right; exists e; reflexivity].
    destruct (PathIO.write_wb _ _ w2) as [[?|e] w3];
      [left; reflexivity|right; exists e; reflexivity].
Qed.

End AssemblerProperties.

(** The sample directory [photos], converted into the directory [out]:
    the two pages of [a.pdf], then the page of [b.PNG], then the page of
    [c.jpeg]. *)
Lemma convert_files_to_pdf_page_order_witness :
  exists w',
    @convert_files_to_pdf toy (PStr "photos") (PStr "out") 300 sample_world
    = (Ok (final_path sample_fs (ensure_path (PStr "photos"))
             (ensure_path (PStr "out"))), w') /\
    OS.read (w_fs w')
      (Pathlib.str (final_path sample_fs (ensure_path (PStr "photos"))
                      (ensure_path (PStr "out"))))
    = Ok (@PdfWriter_serialize toy
            (List.concat [[Byte.x01; Byte.x02]; [Byte.x07]; [Byte.x09]])).
Proof.
  eapply (proj2 (@convert_files_to_pdf_page_order toy sample_world
                   (PStr "photos") (PStr "out") 300)
            [mkPath "" ["photos"; "a.pdf"]; mkPath "" ["photos"; "b.PNG"];
             mkPath "" ["photos"; "c.jpeg"]]).
  - reflexivity.
  - constructor; [|constructor; [|constructor; [|constructor]]].
    + eapply (@contributes_pdf toy); reflexivity.
    + eapply (@contributes_image toy); [vm_compute; discriminate|reflexivity..].
    + eapply (@contributes_image toy); [vm_compute; discriminate|reflexivity..].
  - reflexivity.
Defined.

Example convert_photos_output :
  Pathlib.str (final_path sample_fs (ensure_path (PStr "photos"))
                 (ensure_path (PStr "out")))
  = "out/photos_combined_output.pdf".
Proof. reflexivity. Qed.

(** The sample directory [single] holds one file, [X.PDF], of three pages;
    converted to [out/copy.pdf] it gives a document of these three pages. *)
Lemma single_pdf_roundtrip_witness :
  exists w' out,
    @convert_files_to_pdf toy (PStr "single") (PStr "out/copy.pdf") 300
      sample_world
    = (Ok (final_path sample_fs (ensure_path (PStr "single"))
             (ensure_path (PStr "out/copy.pdf"))), w') /\
    OS.read (w_fs w')
      (Pathlib.str (final_path sample_fs (ensure_path (PStr "single"))
                      (ensure_path (PStr "out/copy.pdf")))) = Ok out /\
    @PdfReader_parse toy out = Ok [Byte.x01; Byte.x02; Byte.x03].
Proof.
  eapply (@single_pdf_roundtrip toy sample_world (PStr "single")
            (PStr "out/copy.pdf") 300 (mkPath "" ["single"; "X.PDF"])
            [Byte.x50; Byte.x01; Byte.x02; Byte.x03]).
  - intros ps. reflexivity.
  - reflexivity.
  - reflexivity.
  - reflexivity.
  - reflexivity.
  - reflexivity.
Defined.

(** The sample directory [texts] holds [readme.txt] and [data.csv] only;
    converted into the directory [out] it gives a document of no pages. *)
Lemma no_matching_files_zero_pages_witness :
  fst (get_input_files (PStr "texts") sample_world) = Ok [] /\
  exists w',
    @convert_files_to_pdf toy (PStr "texts") (PStr "out") 300 sample_world
    = (Ok (final_path sample_fs (ensure_path (PStr "texts"))
             (ensure_path (PStr "out"))), w') /\
    OS.read (w_fs w')
      (Pathlib.str (final_path sample_fs (ensure_path (PStr "texts"))
                      (ensure_path (PStr "out"))))
    = Ok (@PdfWriter_serialize toy []) /\
    @PdfReader_parse toy (@PdfWriter_serialize toy []) = Ok [].
Proof.
  eapply (@no_matching_files_zero_pages toy sample_world (PStr "texts")
            (PStr "out") 300 ["readme.txt"; "data.csv"]).
  - intros ps. reflexivity.
  - reflexivity.
  - intros n [<-|[<-|[]]]; reflexivity.
  - reflexivity.
Defined.

(** The output directory [out/] and the input directory [photos]: the
    save path is [out/photos_combined_output.pdf], and the run returns it. *)
Lemma save_path_in_existing_directory_witness :
  (resolve_save_path (ensure_path (PStr "photos")) (ensure_path (PStr "out/"))
     sample_world
   = (Ok (Pathlib.truediv (ensure_path (PStr "out/"))
            (Pathlib.name (ensure_path (PStr "photos"))
             ++ "_combined_output.pdf")), sample_world) /\
   (fst (@convert_files_to_pdf toy (PStr "photos") (PStr "out/") 300 sample_world)
    = Ok (Pathlib.truediv (ensure_path (PStr "out/"))
            (Pathlib.name (ensure_path (PStr "photos"))
             ++ "_combined_output.pdf"))
    \/ exists e,
         fst (@convert_files_to_pdf toy (PStr "photos") (PStr "out/") 300
                sample_world) = Raise e)) /\
  Pathlib.str (Pathlib.truediv (ensure_path (PStr "out/"))
                 (Pathlib.name (ensure_path (PStr "photos"))
                  ++ "_combined_output.pdf"))
  = "out/photos_combined_output.pdf" /\
  fst (@convert_files_to_pdf toy (PStr "photos") (PStr "out/") 300 sample_world)
  = Ok (Pathlib.of_str "out/photos_combined_output.pdf").
Proof.
  split; [|split; reflexivity].
  apply (@save_path_in_existing_directory toy sample_world (PStr "photos")
           (PStr "out/") 300).
  reflexivity.
Defined.

(* ================================================================== *)
(** * The write comes last; the rasterizer; the dispatch *)
(* ================================================================== *)

Section WriteLast.

Context {L : Collaborators}.

Lemma only_reads_access (files : list Path) : only_reads (map access files).
Proof.
  unfold only_reads. induction files as [|f files IH]; [reflexivity|].
  simpl. rewrite IH. unfold access.
  now destruct (String.eqb (PyStr.lower (Pathlib.suffix f)) ".pdf").
Qed.

(** C4. No write before all pages are collected.  The accesses of a run
    either contain no write, and then the run has raised and the file
    system is as it was; or the only write is the last access, made after
    the scan and the loop over all the scanned files have both returned.
    In particular, when one scanned image does not decode the run raises
    and the file system, hence any file at the save path, is as it was. *)
Theorem no_write_before_all_pages_collected
  (w : world) (directory save_path : PathLike) (dpi : Z) :
  (exists evs,
      w_log (snd (convert_files_to_pdf directory save_path dpi w))
      = (w_log w ++ evs)%list /\
      (((exists e, fst (convert_files_to_pdf directory save_path dpi w) = Raise e)
        /\ w_fs (snd (convert_files_to_pdf directory save_path dpi w)) = w_fs w
        /\ only_reads evs)
       \/
       (exists reads files pages,
           evs = (reads ++ [EvOpenWb (Pathlib.str
                     (final_path (w_fs w) (ensure_path directory)
                        (ensure_path save_path)))])%list /\
           only_reads reads /\
           fst (get_input_files directory w) = Ok files /\
           fst (add_files dpi PdfWriter_new files
                  (snd (get_input_files directory w))) = Ok pages))) /\
  (forall files f data e,
      fst (get_input_files directory w) = Ok files ->
      In f files ->
      PyStr.lower (Pathlib.suffix f) <> ".pdf" ->
      OS.read (w_fs w) (Pathlib.str f) = Ok data ->
      Image_decode data = Raise e ->
      exists e' w' evs,
        convert_files_to_pdf directory save_path dpi w = (Raise e', w') /\
        w_fs w' = w_fs w /\
        w_log w' = (w_log w ++ evs)%list /\
        only_reads evs).
Proof.
  pose proof (convert_files_to_pdf_eq directory save_path dpi w) as Heq.
  cbv zeta in Heq. rewrite Heq. clear Heq.
  pose proof (get_input_files_world directory w) as Hw1.
  destruct (get_input_files directory w) as [[files|e0] w1]; simpl in Hw1;
    subst w1; cbn [fst snd].
  2:{ split.
      - exists [EvListdir (Pathlib.str (ensure_path directory))].
        split; [reflexivity|]. left.
        split; [now exists e0|]. split; reflexivity.
      - intros files f data e Hscan. discriminate Hscan. }
  destruct (add_files_world dpi files PdfWriter_new
              (logged (EvListdir (Pathlib.str (ensure_path directory))) w))
    as [k Hw2].
  rewrite logged_all_cons in Hw2.
  assert (Hreads : only_reads (EvListdir (Pathlib.str (ensure_path directory))
                               :: map access (firstn k files)))
    by apply (only_reads_access (firstn k files)).
  destruct (add_files dpi PdfWriter_new files _) as [[pages|e1] w2] eqn:Hadd;
    simpl in Hw2; subst w2; cbn [fst snd].
  - split.
    + rewrite write_wb_eq. cbn [w_fs logged_all].
      exists ((EvListdir (Pathlib.str (ensure_path directory))
               :: map access (firstn k files))
              ++ [EvOpenWb (Pathlib.str
                    (final_path (w_fs w) (ensure_path directory)
                       (ensure_path save_path)))])%list.
      split.
      * destruct (OS.open_wb _ _) as [[h fs1]|e2]; simpl;
          now rewrite <- app_assoc.
      * right. eexists _, files, pages.
        split; [reflexivity|]. split; [exact Hreads|].
        split; [reflexivity|now rewrite Hadd].
    + intros files' f data e Hscan Hin Hsuf Hread Hdec.
      injection Hscan as <-.
      destruct (add_files_raise dpi files f Hin PdfWriter_new
                  (logged (EvListdir (Pathlib.str (ensure_path directory))) w))
        as [e' He'].
      * intros acc' evs. exists e.
        rewrite (add_file_image _ _ _ _ Hsuf). cbn [w_fs logged_all logged].
        now rewrite Hread, Hdec.
      * rewrite Hadd in He'. discriminate He'.
  - split.
    + eexists. split; [reflexivity|]. left.
      split; [now exists e1|]. split; [reflexivity|exact Hreads].
    + intros files' f data e Hscan Hin Hsuf Hread Hdec.
      exists e1. eexists. eexists.
      split; [reflexivity|]. split; [reflexivity|].
      split; [reflexivity|exact Hreads].
Qed.

(** C6, amended. For an image file that decodes and a DPI that the encoder
    accepts, the buffer that [convert_image_to_pdf] returns is at position 0
    and holds what the encoder wrote for the image converted to RGB with
    the DPI as its resolution; by the encoder's contract this is a document
    of exactly one page.  The DPI is passed on as it is: when the encoder
    raises on it, as it does at DPI 0, [convert_image_to_pdf] raises the
    same exception and returns no buffer. *)
Theorem convert_image_to_pdf_one_page
  (w : world) (image_path : PathLike) (dpi : Z) (data : bytes) (img : image) :
  encodes_one_page L ->
  OS.read (w_fs w) (Pathlib.str (ensure_path image_path)) = Ok data ->
  Image_decode data = Ok img ->
  (forall encoded,
      Image_encode_pdf (Image_convert img "RGB") dpi = Ok encoded ->
      exists buf w',
        convert_image_to_pdf image_path dpi w = (Ok buf, w') /\
        tell buf = 0%nat /\
        getvalue buf = encoded /\
        (exists p, PdfReader_parse (getvalue buf) = Ok [p]) /\
        w_fs w' = w_fs w) /\
  (forall e,
      Image_encode_pdf (Image_convert img "RGB") dpi = Raise e ->
      exists w',
        convert_image_to_pdf image_path dpi w = (Raise e, w') /\
        w_fs w' = w_fs w).
Proof.
  intros Hone Hread Hdec.
  pose proof (convert_image_to_pdf_eq image_path dpi w) as Heq.
  cbv zeta in Heq. rewrite Hread, Hdec in Heq. split.
  - intros encoded Henc. rewrite Henc in Heq.
    eexists _, _. split; [exact Heq|]. repeat split.
    apply (Hone _ _ _ Henc).
  - intros e Henc. rewrite Henc in Heq.
    eexists. split; [exact Heq|reflexivity].
Qed.

(** C10. The dispatch of the loop body is case-insensitive, as the filter
    of the scanner is: a file whose lower-cased suffix is [.pdf] passes the
    filter and is read by the PDF branch, which appends all its pages; the
    one access made is the opening of the file as a PDF, none by the
    rasterizer. *)
Theorem add_file_pdf_dispatch
  (dpi : Z) (acc : PdfWriter) (file : Path) (w : world) :
  PyStr.lower (Pathlib.suffix file) = ".pdf" ->
  has_valid_extension file = true /\
  fst (add_file dpi acc file w)
  = match OS.read (w_fs w) (Pathlib.str file) with
    | Ok data =>
        match PdfReader_parse data with
        | Ok pages => Ok (acc ++ pages)%list
        | Raise e => Raise e
        end
    | Raise e => Raise e
    end /\
  w_log (snd (add_file dpi acc file w))
  = (w_log w ++ [EvPdfOpen (Pathlib.str file)])%list.
Proof.
  intros Hs. split; [|split].
  - unfold has_valid_extension. now rewrite Hs.
  - rewrite (add_file_pdf _ _ _ _ Hs).
    destruct (OS.read _ _); [|reflexivity].
    now destruct (PdfReader_parse _).
  - rewrite add_file_world. unfold access.
    rewrite Hs. reflexivity.
Qed.

End WriteLast.

(** The sample directory [broken]: of its four images the second does not
    decode.  The run raises, and the file system, with the earlier
    [result.pdf] in it, is as it was. *)
Lemma no_write_before_all_pages_collected_witness :
  exists e' w' evs,
    @convert_files_to_pdf toy (PStr "broken") (PStr "result.pdf") 300
      sample_world = (Raise e', w') /\
    w_fs w' = w_fs sample_world /\
    w_log w' = (w_log sample_world ++ evs)%list /\
    only_reads evs.
Proof.
  eapply (proj2 (@no_write_before_all_pages_collected toy sample_world
                   (PStr "broken") (PStr "result.pdf") 300))
    with (f := mkPath "" ["broken"; "2.png"]).
  - reflexivity.
  - right. left. reflexivity.
  - vm_compute. discriminate.
  - reflexivity.
  - reflexivity.
Defined.

Example convert_broken_leaves_result :
  let r := @convert_files_to_pdf toy (PStr "broken") (PStr "result.pdf") 300
             sample_world in
  fst r = Raise (mkExn UnidentifiedImageError "cannot identify image file") /\
  OS.read (w_fs (snd r)) "result.pdf" = Ok [Byte.x50; Byte.xff] /\
  w_log (snd r)
  = [EvListdir "broken"; EvImageOpen "broken/1.png"; EvImageOpen "broken/2.png"].
Proof. repeat split. Qed.

Lemma toy_encodes_one_page : encodes_one_page toy.
Proof.
  intros img dpi encoded.
  cbv beta iota delta [Image_encode_pdf PdfReader_parse toy].
  destruct (dpi =? 0); [discriminate|].
  destruct (2 ^ 1024 - 2 ^ 970 <=? Z.abs dpi); [discriminate|].
  intros [= <-]. eexists. reflexivity.
Qed.

(** The sample image [photos/b.PNG]: at 150 DPI a buffer is returned, at
    DPI 0 the encoder's exception. *)
Lemma convert_image_to_pdf_one_page_witness :
  (exists buf w',
      @convert_image_to_pdf toy (PStr "photos/b.PNG") 150 sample_world
      = (Ok buf, w') /\
      tell buf = 0%nat /\
      getvalue buf = [Byte.x50; Byte.x07] /\
      (exists p, @PdfReader_parse toy (getvalue buf) = Ok [p]) /\
      w_fs w' = w_fs sample_world) /\
  (exists w',
      @convert_image_to_pdf toy (PStr "photos/b.PNG") 0 sample_world
      = (Raise (mkExn ZeroDivisionError "float division by zero"), w') /\
      w_fs w' = w_fs sample_world).
Proof.
  split.
  - apply (proj1 (@convert_image_to_pdf_one_page toy sample_world
                    (PStr "photos/b.PNG") 150 [Byte.x49; Byte.x07] [Byte.x07]
                    toy_encodes_one_page eq_refl eq_refl)).
    reflexivity.
  - apply (proj2 (@convert_image_to_pdf_one_page toy sample_world
                    (PStr "photos/b.PNG") 0 [Byte.x49; Byte.x07] [Byte.x07]
                    toy_encodes_one_page eq_refl eq_refl)).
    reflexivity.
Defined.

(** C6, the claim refuted: the sample file [photos/b.PNG] is an image that
    decodes, and at DPI 0 [convert_image_to_pdf] returns no buffer: the
    division by the resolution in the encoder raises, and the exception
    leaves the function. *)
Lemma convert_image_to_pdf_raises_at_dpi_zero :
  OS.read sample_fs "photos/b.PNG" = Ok [Byte.x49; Byte.x07] /\
  @Image_decode toy [Byte.x49; Byte.x07] = Ok [Byte.x07] /\
  @convert_image_to_pdf toy (PStr "photos/b.PNG") 0 sample_world
  = (Raise (mkExn ZeroDivisionError "float division by zero"),
     logged (EvImageOpen "photos/b.PNG") sample_world).
Proof. repeat split. Qed.

(** A resolution too large for a float, and a negative one. *)
Example convert_image_to_pdf_other_resolutions :
  fst (@convert_image_to_pdf toy (PStr "photos/b.PNG") (10 ^ 400) sample_world)
  = Raise (mkExn OverflowError "int too large to convert to float") /\
  fst (@convert_image_to_pdf toy (PStr "photos/b.PNG") (-300) sample_world)
  = Ok (mkBytesIO [Byte.x50; Byte.x07] 0).
Proof. split; reflexivity. Qed.

(** The sample file [single/X.PDF] goes through the PDF branch. *)
Lemma add_file_pdf_dispatch_witness :
  has_valid_extension (Pathlib.of_str "single/X.PDF") = true /\
  fst (@add_file toy 300 [] (Pathlib.of_str "single/X.PDF") sample_world)
  = match OS.read (w_fs sample_world)
            (Pathlib.str (Pathlib.of_str "single/X.PDF")) with
    | Ok data =>
        match @PdfReader_parse toy data with
        | Ok pages => Ok ([] ++ pages)%list
        | Raise e => Raise e
        end
    | Raise e => Raise e
    end /\
  w_log (snd (@add_file toy 300 [] (Pathlib.of_str "single/X.PDF") sample_world))
  = (w_log sample_world
     ++ [EvPdfOpen (Pathlib.str (Pathlib.of_str "single/X.PDF"))])%list.
Proof.
  apply (@add_file_pdf_dispatch toy 300 [] (Pathlib.of_str "single/X.PDF")
           sample_world).
  reflexivity.
Defined.

Example add_file_upper_case_pdf :
  @add_file toy 300 [] (Pathlib.of_str "single/X.PDF") sample_world
  = (Ok [Byte.x01; Byte.x02; Byte.x03],
     logged (EvPdfOpen "single/X.PDF") sample_world).
Proof. reflexivity. Qed.

(* ================================================================== *)
(** * The command line front end *)
(* ================================================================== *)

Section FrontEnd.

Context {L : Collaborators}.



End FrontEnd.


Example main_success :
  @main toy (mkArgs (Some "photos") (Some "out") 300) sample_world
  = (Ok tt,
     printed "PDF created successfully: out/photos_combined_output.pdf"
       (snd (@convert_files_to_pdf toy (PStr "photos") (PStr "out") 300
               sample_world))).
Proof. reflexivity. Qed.

Example main_error_message :
  w_stdout (snd (@main toy (mkArgs None None DEFAULT_DPI)
                   (mkWorld sample_fs [] [Line "missing"; Line "out"] [])))
  = ["Input directory Path: "; "Output PDF Path: ";
     "An error occurred: [Errno 2] No such file or directory: 'missing'"
     ++ String "010" ""].
Proof. reflexivity. Qed.

(* ================================================================== *)
(** * More on names and extensions *)
(* ================================================================== *)

Lemma lower_ascii_eqb_dot (c : ascii) :
  Ascii.eqb (PyStr.lower_ascii c) "." = Ascii.eqb c ".".
Proof. destruct c as [[] [] [] [] [] [] [] []]; reflexivity. Qed.

Lemma rfind_lower (s : string) :
  PyStr.rfind "." (PyStr.lower s) = PyStr.rfind "." s.
Proof.
  induction s as [|c s IH]; simpl; [reflexivity|].
  now rewrite IH, lower_ascii_eqb_dot.
Qed.

Lemma length_lower (s : string) :
  String.length (PyStr.lower s) = String.length s.
Proof. induction s as [|c s IH]; simpl; [reflexivity|now rewrite IH]. Qed.

Lemma slice_from_lower (i : nat) (s : string) :
  PyStr.slice_from i (PyStr.lower s) = PyStr.lower (PyStr.slice_from i s).
Proof.
  revert s. induction i as [|i IH]; intros [|c s]; simpl; auto.
Qed.

(** The suffix of a lower-cased name is the lower-cased suffix. *)
Lemma suffix_lower (d : Path) (n : string) :
  Pathlib.suffix (Pathlib.child d (PyStr.lower n))
  = PyStr.lower (Pathlib.suffix (Pathlib.child d n)).
Proof.
  unfold Pathlib.suffix. rewrite !name_child, rfind_lower.
  unfold PyStr.len. rewrite length_lower.
  destruct ((0 <? PyStr.rfind "." n)
            && (PyStr.rfind "." n <? Z.of_nat (String.length n) - 1));
    [apply slice_from_lower|reflexivity].
Qed.

Lemma rfind_bounds (c : ascii) (s : string) :
  -1 <= PyStr.rfind c s < PyStr.len s.
Proof.
  unfold PyStr.len. induction s as [|a s IH]; simpl String.length; simpl PyStr.rfind.
  - lia.
  - destruct (0 <=? PyStr.rfind c s) eqn:E.
    + apply Z.leb_le in E. lia.
    + destruct (Ascii.eqb a c); lia.
Qed.

Lemma string_length_app (a b : string) :
  String.length (a ++ b) = (String.length a + String.length b)%nat.
Proof. induction a as [|c a IH]; simpl; [reflexivity|now rewrite IH]. Qed.

(** The last occurrence in a concatenation is the last one in the second
    part, when there is one there. *)
Lemma rfind_app (c : ascii) (a b : string) :
  PyStr.rfind c (a ++ b) =
  if 0 <=? PyStr.rfind c b then PyStr.len a + PyStr.rfind c b
  else PyStr.rfind c a.
Proof.
  unfold PyStr.len. induction a as [|x a IH].
  - simpl. destruct (0 <=? PyStr.rfind c b) eqn:E; [reflexivity|].
    apply Z.leb_gt in E. pose proof (rfind_bounds c b). lia.
  - change (PyStr.rfind c (String x a ++ b))
      with (let r := PyStr.rfind c (a ++ b) in
            if 0 <=? r then r + 1 else if Ascii.eqb x c then 0 else -1).
    cbv zeta. rewrite IH.
    destruct (0 <=? PyStr.rfind c b) eqn:E.
    + apply Z.leb_le in E.
      replace (0 <=? Z.of_nat (String.length a) + PyStr.rfind c b) with true
        by (symmetry; apply Z.leb_le; lia).
      simpl String.length. lia.
    + reflexivity.
Qed.

Lemma slice_from_app (a b : string) (k : nat) :
  PyStr.slice_from (String.length a + k) (a ++ b) = PyStr.slice_from k b.
Proof. induction a as [|c a IH]; simpl; [reflexivity|exact IH]. Qed.

Lemma slice_from_split (i : nat) (s : string) :
  (i <= String.length s)%nat ->
  exists stem, s = stem ++ PyStr.slice_from i s /\ String.length stem = i.
Proof.
  revert s. induction i as [|i IH]; intros s Hi.
  - exists "". split; [now destruct s|reflexivity].
  - destruct s as [|c s]; [simpl in Hi; lia|].
    destruct (IH s) as (stem & Hs & Hl); [simpl in Hi; lia|].
    exists (String c stem). simpl. split; [now rewrite <- Hs|now rewrite Hl].
Qed.

(** The four extensions have their one dot in front. *)
Lemma valid_extension_shape (e : string) :
  In (PyStr.lower e) valid_extensions ->
  PyStr.rfind "." e = 0 /\ (4 <= String.length e)%nat.
Proof.
  intros Hin. rewrite <- rfind_lower, <- (length_lower e).
  destruct Hin as [<-|[<-|[<-|[<-|[]]]]]; split; simpl; lia.
Qed.

Lemma mem_In (x : string) (xs : list string) :
  PyStr.mem x xs = true <-> In x xs.
Proof.
  unfold PyStr.mem. rewrite existsb_exists. split.
  - intros (e & He & Heq). apply String.eqb_eq in Heq. now subst e.
  - intros He. exists x. split; [exact He|apply String.eqb_refl].
Qed.

(** The suffix of a non-empty stem followed by an extension is the
    extension. *)
Lemma suffix_stem_ext (d : Path) (stem ext : string) :
  stem <> "" ->
  In (PyStr.lower ext) valid_extensions ->
  Pathlib.suffix (Pathlib.child d (stem ++ ext)) = ext.
Proof.
  intros Hstem Hin. unfold Pathlib.suffix. rewrite name_child.
  destruct (valid_extension_shape ext Hin) as [Hr Hl].
  rewrite rfind_app, Hr. change (0 <=? 0) with true. cbv iota.
  unfold PyStr.len. rewrite string_length_app.
  assert (0 < String.length stem)%nat
    by (destruct stem; [contradiction|simpl; lia]).
  replace ((0 <? Z.of_nat (String.length stem) + 0)
           && (Z.of_nat (String.length stem) + 0
               <? Z.of_nat (String.length stem + String.length ext) - 1))
    with true
    by (symmetry; apply andb_true_iff; split; apply Z.ltb_lt; lia).
  replace (Z.to_nat (Z.of_nat (String.length stem) + 0))
    with (String.length stem + 0)%nat by lia.
  apply slice_from_app.
Qed.

(** X1. Which names the scanner's filter selects: exactly those that are a
    non-empty stem followed by one of the extensions [.png], [.jpeg],
    [.jpg], [.pdf] in any mix of cases.  So [a.tar.PDF] is selected, and a
    name that is only an extension, as [.pdf], is not. *)
Theorem has_valid_extension_iff (d : Path) (n : string) :
  has_valid_extension (Pathlib.child d n) = true <->
  exists stem ext,
    n = stem ++ ext /\ stem <> "" /\
    In (PyStr.lower ext) [".png"; ".jpeg"; ".jpg"; ".pdf"].
Proof.
  unfold has_valid_extension. rewrite mem_In. split.
  - unfold Pathlib.suffix. rewrite name_child.
    destruct ((0 <? PyStr.rfind "." n) && (PyStr.rfind "." n <? PyStr.len n - 1))
      eqn:E.
    + apply andb_true_iff in E. destruct E as [E1 E2].
      apply Z.ltb_lt in E1. apply Z.ltb_lt in E2. unfold PyStr.len in E2.
      intros Hin.
      destruct (slice_from_split (Z.to_nat (PyStr.rfind "." n)) n)
        as (stem & Hs & Hl); [lia|].
      exists stem, (PyStr.slice_from (Z.to_nat (PyStr.rfind "." n)) n).
      split; [exact Hs|]. split; [|exact Hin].
      intros ->. simpl in Hl. lia.
    + simpl. intros [H|[H|[H|[H|[]]]]]; discriminate H.
  - intros (stem & ext & -> & Hstem & Hin).
    now rewrite (suffix_stem_ext d stem ext Hstem Hin).
Qed.

(** X2. The scanner's filter and the dispatch of the loop body look at the
    name without regard to case: two names that differ only in the case of
    their letters are selected alike and take the same branch. *)
Theorem extension_tests_ignore_case (d : Path) (n1 n2 : string) :
  PyStr.lower n1 = PyStr.lower n2 ->
  has_valid_extension (Pathlib.child d n1)
  = has_valid_extension (Pathlib.child d n2) /\
  String.eqb (PyStr.lower (Pathlib.suffix (Pathlib.child d n1))) ".pdf"
  = String.eqb (PyStr.lower (Pathlib.suffix (Pathlib.child d n2))) ".pdf".
Proof.
  intros H. unfold has_valid_extension.
  rewrite <- !suffix_lower, H. split; reflexivity.
Qed.

Lemma extension_tests_ignore_case_witness :
  has_valid_extension (Pathlib.child (Pathlib.of_str "photos") "Scan.Pdf")
  = has_valid_extension (Pathlib.child (Pathlib.of_str "photos") "sCAN.pDF") /\
  String.eqb (PyStr.lower (Pathlib.suffix
                (Pathlib.child (Pathlib.of_str "photos") "Scan.Pdf"))) ".pdf"
  = String.eqb (PyStr.lower (Pathlib.suffix
                  (Pathlib.child (Pathlib.of_str "photos") "sCAN.pDF"))) ".pdf".
Proof.
  apply (extension_tests_ignore_case (Pathlib.of_str "photos")
           "Scan.Pdf" "sCAN.pDF").
  reflexivity.
Defined.

Lemma split_no_sep (sep : ascii) (s x : string) :
  In x (PyStr.split sep s) -> PyStr.rfind sep x = -1.
Proof.
  revert x. induction s as [|c s IH]; intros x; simpl.
  - intros [<-|[]]. reflexivity.
  - destruct (Ascii.eqb c sep) eqn:E.
    + intros [<-|Hin]; [reflexivity|now apply IH].
    + destruct (PyStr.split sep s) as [|h t].
      * intros [<-|[]]. simpl. now rewrite E.
      * intros [<-|Hin]; [|apply IH; now right].
        simpl. rewrite (IH h (or_introl eq_refl)). simpl. now rewrite E.
Qed.

Lemma split_none (sep : ascii) (s : string) :
  PyStr.rfind sep s = -1 -> PyStr.split sep s = [s].
Proof.
  induction s as [|c s IH]; simpl; [reflexivity|].
  pose proof (rfind_bounds sep s) as Hb.
  destruct (0 <=? PyStr.rfind sep s) eqn:E.
  - apply Z.leb_le in E. lia.
  - apply Z.leb_gt in E. destruct (Ascii.eqb c sep); [discriminate|].
    intros _. rewrite IH by lia. reflexivity.
Qed.

(** The name of a path made from a string holds no slash. *)
Lemma name_of_str_no_slash (s : string) :
  PyStr.rfind "/" (Pathlib.name (Pathlib.of_str s)) = -1.
Proof.
  unfold Pathlib.name, Pathlib.of_str.
  destruct (Pathlib.splitroot s) as [rt rel]. simpl.
  set (l := filter _ _).
  assert (Hl : forall x, In x l -> PyStr.rfind "/" x = -1).
  { intros x Hx. apply filter_In in Hx. now apply (split_no_sep "/" rel). }
  clearbody l. induction l as [|y l IH]; [reflexivity|].
  destruct l as [|z l]; [apply Hl; now left|].
  apply IH. intros x Hx. apply Hl. now right.
Qed.

(** A string without a slash that is not empty and not a dot is a path of
    one component. *)
Lemma of_str_single (key : string) :
  PyStr.rfind "/" key = -1 -> key <> "" -> key <> "." ->
  Pathlib.of_str key = mkPath "" [key].
Proof.
  intros Hr Hne Hdot. unfold Pathlib.of_str, Pathlib.splitroot.
  destruct key as [|c k]; [contradiction|].
  assert (Hc : Ascii.eqb c "/" = false).
  { simpl in Hr. destruct (0 <=? PyStr.rfind "/" k); [|destruct (Ascii.eqb c "/")];
      [pose proof (rfind_bounds "/" k); lia|discriminate|reflexivity]. }
  replace (String.eqb (PyStr.slice1 0 (String c k)) "/") with false
    by (simpl; now rewrite Hc).
  simpl negb. cbv iota. rewrite (split_none "/" _ Hr). simpl filter.
  destruct (String.eqb (String c k) ".") eqn:E.
  - apply String.eqb_eq in E. contradiction.
  - simpl in E. now rewrite E.
Qed.

Lemma default_name_single (nm : string) :
  PyStr.rfind "/" nm = -1 ->
  Pathlib.of_str (nm ++ "_combined_output.pdf")
  = mkPath "" [nm ++ "_combined_output.pdf"].
Proof.
  intros Hr. apply of_str_single.
  - rewrite rfind_app. simpl (PyStr.rfind "/" "_combined_output.pdf").
    exact Hr.
  - destruct nm; discriminate.
  - intros H. apply (f_equal String.length) in H. rewrite string_length_app in H.
    simpl in H. lia.
Qed.

(** X3. The default output file.  For an input directory given as a
    string and a save path that is an existing directory, the resolved
    save path is the entry of the save directory named after the last
    component of the input directory, followed by
    [_combined_output.pdf] (the component is empty for ['.'], [''] and
    ['/'], and the file is then [_combined_output.pdf]).  Its suffix is
    [.pdf], so the scanner's filter accepts it. *)
Theorem default_output_file
  (w : world) (s : string) (save_path : PathLike) :
  OS.isdir (w_fs w) (Pathlib.str (ensure_path save_path)) = true ->
  resolve_save_path (ensure_path (PStr s)) (ensure_path save_path) w
  = (Ok (Pathlib.child (ensure_path save_path)
           (Pathlib.name (Pathlib.of_str s) ++ "_combined_output.pdf")), w) /\
  Pathlib.str (Pathlib.child (ensure_path save_path)
                 (Pathlib.name (Pathlib.of_str s) ++ "_combined_output.pdf"))
  = dir_prefix (ensure_path save_path)
    ++ Pathlib.name (Pathlib.of_str s) ++ "_combined_output.pdf" /\
  Pathlib.suffix (Pathlib.child (ensure_path save_path)
                    (Pathlib.name (Pathlib.of_str s) ++ "_combined_output.pdf"))
  = ".pdf" /\
  has_valid_extension
    (Pathlib.child (ensure_path save_path)
       (Pathlib.name (Pathlib.of_str s) ++ "_combined_output.pdf")) = true.
Proof.
  intros Hdir.
  assert (Hsuf : Pathlib.suffix
                   (Pathlib.child (ensure_path save_path)
                      (Pathlib.name (Pathlib.of_str s) ++ "_combined_output.pdf"))
                 = ".pdf").
  { replace (Pathlib.name (Pathlib.of_str s) ++ "_combined_output.pdf")
      with ((Pathlib.name (Pathlib.of_str s) ++ "_combined_output") ++ ".pdf")
      by (now rewrite string_app_assoc).
    apply suffix_stem_ext.
    - destruct (Pathlib.name (Pathlib.of_str s)); discriminate.
    - right. right. right. now left. }
  split; [|split; [apply str_child|split; [exact Hsuf|]]].
  - rewrite resolve_save_path_eq. unfold final_path. rewrite Hdir.
    unfold Pathlib.truediv. simpl ensure_path.
    rewrite (default_name_single _ (name_of_str_no_slash s)). reflexivity.
  - unfold has_valid_extension. now rewrite Hsuf.
Qed.

(** The current directory, converted into the sample directory [out]. *)
Lemma default_output_file_witness :
  resolve_save_path (ensure_path (PStr ".")) (ensure_path (PStr "out"))
    sample_world
  = (Ok (Pathlib.child (ensure_path (PStr "out"))
           (Pathlib.name (Pathlib.of_str ".") ++ "_combined_output.pdf")),
     sample_world) /\
  Pathlib.str (Pathlib.child (ensure_path (PStr "out"))
                 (Pathlib.name (Pathlib.of_str ".") ++ "_combined_output.pdf"))
  = dir_prefix (ensure_path (PStr "out"))
    ++ Pathlib.name (Pathlib.of_str ".") ++ "_combined_output.pdf" /\
  Pathlib.suffix (Pathlib.child (ensure_path (PStr "out"))
                    (Pathlib.name (Pathlib.of_str ".") ++ "_combined_output.pdf"))
  = ".pdf" /\
  has_valid_extension
    (Pathlib.child (ensure_path (PStr "out"))
       (Pathlib.name (Pathlib.of_str ".") ++ "_combined_output.pdf")) = true.
Proof.
  apply (default_output_file sample_world "." (PStr "out")).
  reflexivity.
Defined.

Example default_output_file_here :
  Pathlib.str (Pathlib.child (ensure_path (PStr "out"))
                 (Pathlib.name (Pathlib.of_str ".") ++ "_combined_output.pdf"))
  = "out/_combined_output.pdf".
Proof. reflexivity. Qed.

(* ================================================================== *)
(** * How the assembler fails, and what it writes where *)
(* ================================================================== *)


Section AssemblerFailures.

Context {L : Collaborators}.

(** Whether the loop body raises on a file, and what, depends on the file
    system only. *)
Lemma add_file_raise_frame (dpi : Z) (acc acc' : PdfWriter) (f : Path)
  (w w' : world) (e : exn) :
  fst (add_file dpi acc f w) = Raise e ->
  w_fs w' = w_fs w ->
  add_file dpi acc' f w' = (Raise e, logged (access f) w').
Proof.
  intros Hr Hfs. unfold access.
  destruct (String.eqb (PyStr.lower (Pathlib.suffix f)) ".pdf") eqn:E;
    cbv iota.
  - apply String.eqb_eq in E. rewrite (add_file_pdf dpi acc f w E) in Hr.
    rewrite (add_file_pdf dpi acc' f w' E).
    rewrite Hfs. destruct (OS.read _ _); [|simpl in Hr; congruence].
    destruct (PdfReader_parse _); simpl in Hr; congruence.
  - apply String.eqb_neq in E. rewrite (add_file_image dpi acc f w E) in Hr.
    rewrite (add_file_image dpi acc' f w' E).
    rewrite Hfs. destruct (OS.read _ _); [|simpl in Hr; congruence].
    destruct (Image_decode _); [|simpl in Hr; congruence].
    destruct (Image_encode_pdf _ _); [|simpl in Hr; congruence].
    destruct (PdfReader_parse _) as [[|? ?]|]; simpl in Hr; congruence.
Qed.

(** The loop stops at the first file on which its body raises. *)
Lemma add_files_first_failure (dpi : Z) (pre post : list Path) (f : Path)
  (pss : list (list page)) (e : exn) :
  forall (acc : PdfWriter) (w : world),
  Forall2 (contributes (w_fs w) dpi) pre pss ->
  fst (add_file dpi PdfWriter_new f w) = Raise e ->
  add_files dpi acc (pre ++ f :: post) w
  = (Raise e, logged_all (map access pre ++ [access f]) w).
Proof.
  revert pss. induction pre as [|g pre IH]; intros pss acc w Hall Hf.
  - simpl. unfold bind.
    rewrite (add_file_raise_frame dpi PdfWriter_new acc f w w e Hf eq_refl).
    reflexivity.
  - inversion Hall as [|? ps ? pss' Hg Hrest]; subst. simpl. unfold bind.
    rewrite (add_file_ok dpi acc g w ps Hg).
    rewrite (IH pss' _ (logged (access g) w) Hrest).
    + now rewrite logged_all_cons.
    + now rewrite (add_file_raise_frame dpi PdfWriter_new PdfWriter_new f w
                     (logged (access g) w) e Hf eq_refl).
Qed.

(** X4. One bad file aborts the run at that file.  When the files in front
    of [f] in the scan all contribute their pages and the loop body raises
    [e] on [f], [convert_files_to_pdf] raises [e]; the accesses made are
    the listing, the opening of the files up to [f], and no other: the
    files after [f] are not opened and nothing is written. *)
Theorem first_failing_file_aborts
  (w : world) (directory save_path : PathLike) (dpi : Z)
  (pre post : list Path) (f : Path) (pss : list (list page)) (e : exn) :
  fst (get_input_files directory w) = Ok (pre ++ f :: post)%list ->
  Forall2 (contributes (w_fs w) dpi) pre pss ->
  fst (add_file dpi PdfWriter_new f w) = Raise e ->
  convert_files_to_pdf directory save_path dpi w
  = (Raise e,
     logged_all (EvListdir (Pathlib.str (ensure_path directory))
                 :: map access pre ++ [access f]) w).
Proof.
  intros Hscan Hall Hf.
  pose proof (convert_files_to_pdf_eq directory save_path dpi w) as Heq.
  cbv zeta in Heq. rewrite Heq. clear Heq.
  pose proof (get_input_files_world directory w) as Hw1.
  destruct (get_input_files directory w) as [r w1]. simpl in Hscan, Hw1.
  subst r w1.
  rewrite (add_files_first_failure dpi pre post f pss e PdfWriter_new
             (logged _ w) Hall).
  - now rewrite logged_all_cons.
  - now rewrite (add_file_raise_frame dpi PdfWriter_new PdfWriter_new f w
                   (logged _ w) e Hf eq_refl).
Qed.

(** X5. A save path that cannot be opened is found out last.  When the
    scan returns and every scanned file contributes its pages, but the
    opening of the save path raises [e], [convert_files_to_pdf] raises [e]
    after it has opened and read every input file; the file system is as
    it was. *)
Theorem unwritable_save_path_fails_last
  (w : world) (directory save_path : PathLike) (dpi : Z)
  (files : list Path) (pss : list (list page)) (e : exn) :
  fst (get_input_files directory w) = Ok files ->
  Forall2 (contributes (w_fs w) dpi) files pss ->
  OS.open_wb (w_fs w)
    (Pathlib.str (final_path (w_fs w) (ensure_path directory)
                    (ensure_path save_path))) = Raise e ->
  convert_files_to_pdf directory save_path dpi w
  = (Raise e,
     logged_all
       (EvListdir (Pathlib.str (ensure_path directory))
        :: map access files
        ++ [EvOpenWb (Pathlib.str (final_path (w_fs w) (ensure_path directory)
                                     (ensure_path save_path)))]) w).
Proof.
  intros Hscan Hall Hopen.
  pose proof (convert_files_to_pdf_eq directory save_path dpi w) as Heq.
  cbv zeta in Heq. rewrite Heq. clear Heq.
  pose proof (get_input_files_world directory w) as Hw1.
  destruct (get_input_files directory w) as [r w1]. simpl in Hscan, Hw1.
  subst r w1.
  rewrite (add_files_ok dpi files pss PdfWriter_new (logged _ w) Hall).
  rewrite write_wb_eq. cbn [w_fs logged_all logged]. rewrite Hopen.
  unfold logged, logged_all; simpl. now rewrite <- !app_assoc.
Qed.


(** X7. The image branch of the loop body.  A file whose lower-cased
    suffix is not [.pdf] is opened as an image, and when the body returns
    it has appended exactly one page: the first page of the document that
    the rasterizer made, whatever the number of pages of that document. *)
Theorem add_file_image_one_page
  (dpi : Z) (acc acc' : PdfWriter) (file : Path) (w w' : world) :
  PyStr.lower (Pathlib.suffix file) <> ".pdf" ->
  add_file dpi acc file w = (Ok acc', w') ->
  w' = logged (EvImageOpen (Pathlib.str file)) w /\
  exists data img encoded p rest,
    OS.read (w_fs w) (Pathlib.str file) = Ok data /\
    Image_decode data = Ok img /\
    Image_encode_pdf (Image_convert img "RGB") dpi = Ok encoded /\
    PdfReader_parse encoded = Ok (p :: rest) /\
    acc' = (acc ++ [p])%list.
Proof.
  intros Hs. rewrite (add_file_image _ _ _ _ Hs).
  destruct (OS.read _ _) as [data|] eqn:Hr; [|discriminate].
  destruct (Image_decode data) as [img|] eqn:Hd; [|discriminate].
  destruct (Image_encode_pdf _ dpi) as [encoded|] eqn:He; [|discriminate].
  destruct (PdfReader_parse _) as [[|p rest]|] eqn:Hp; try discriminate.
  intros [= <- <-]. split; [reflexivity|].
  now exists data, img, encoded, p, rest.
Qed.

(** X8. A directory of images only gives one page per image: when no
    scanned file has the lower-cased suffix [.pdf] and the run returns, the
    document at the returned path is the serialization of as many pages as
    there are scanned files. *)
Theorem images_only_one_page_each
  (w w' : world) (directory save_path : PathLike) (dpi : Z)
  (files : list Path) (p : Path) :
  fst (get_input_files directory w) = Ok files ->
  Forall (fun f => PyStr.lower (Pathlib.suffix f) <> ".pdf") files ->
  convert_files_to_pdf directory save_path dpi w = (Ok p, w') ->
  exists pages,
    OS.read (w_fs w') (Pathlib.str p) = Ok (PdfWriter_serialize pages) /\
    List.length pages = List.length files.
Proof.
  intros Hscan Himg Hrun.
  destruct (convert_files_to_pdf_inv _ _ _ _ _ _ Hrun)
    as (files' & pss & Hscan' & Hall & Hread).
  rewrite Hscan in Hscan'. injection Hscan' as <-.
  exists (List.concat pss). split; [exact Hread|].
  clear Hread Hrun Hscan. induction Hall as [|f ps files pss Hf Hall IH];
    [reflexivity|].
  inversion Himg as [|? ? Hnot Himg']; subst.
  simpl. rewrite List.length_app, (IH Himg').
  destruct Hf as [data pages Hs|data encoded img q rest Hs];
    [contradiction|reflexivity].
Qed.

(** X9. A save path that is not an existing directory is used as it is:
    nothing is added to it, with or without an extension, and it is the
    path that [convert_files_to_pdf] returns, whenever it returns. *)
Theorem save_path_used_as_is
  (w : world) (directory save_path : PathLike) (dpi : Z) :
  OS.isdir (w_fs w) (Pathlib.str (ensure_path save_path)) = false ->
  resolve_save_path (ensure_path directory) (ensure_path save_path) w
  = (Ok (ensure_path save_path), w) /\
  (forall p w',
      convert_files_to_pdf directory save_path dpi w = (Ok p, w') ->
      p = ensure_path save_path /\
      exists data, OS.read (w_fs w') (Pathlib.str (ensure_path save_path))
                   = Ok data).
Proof.
  intros Hdir. split.
  - rewrite resolve_save_path_eq. unfold final_path. now rewrite Hdir.
  - intros p w' Hrun.
    destruct (convert_files_to_pdf_inv _ _ _ _ _ _ Hrun)
      as (files & pss & _ & _ & Hread).
    pose proof (convert_files_to_pdf_eq directory save_path dpi w) as Heq.
    cbv zeta in Heq. rewrite Heq in Hrun. clear Heq.
    unfold final_path in Hrun. rewrite Hdir in Hrun.
    destruct (get_input_files directory w) as [[fs0|e] w1]; [|discriminate].
    destruct (add_files dpi PdfWriter_new fs0 w1) as [[pages|e] w2];
      [|discriminate].
    destruct (PathIO.write_wb _ _ w2) as [[?|e] w3]; [|discriminate].
    injection Hrun as <- <-. split; [reflexivity|]. eauto.
Qed.

End AssemblerFailures.

(** The sample directory [broken]: [1.png] is read, [2.png] does not
    decode, [3.png] and [4.png] are not opened. *)
Lemma first_failing_file_aborts_witness :
  @convert_files_to_pdf toy (PStr "broken") (PStr "result.pdf") 300 sample_world
  = (Raise (mkExn UnidentifiedImageError "cannot identify image file"),
     logged_all (EvListdir (Pathlib.str (ensure_path (PStr "broken")))
                 :: map access [mkPath "" ["broken"; "1.png"]]
                 ++ [access (mkPath "" ["broken"; "2.png"])]) sample_world).
Proof.
  apply (@first_failing_file_aborts toy sample_world (PStr "broken")
           (PStr "result.pdf") 300 [mkPath "" ["broken"; "1.png"]]
           [mkPath "" ["broken"; "3.png"]; mkPath "" ["broken"; "4.png"]]
           (mkPath "" ["broken"; "2.png"]) [[Byte.x01]]).
  - reflexivity.
  - constructor; [|constructor].
    eapply (@contributes_image toy); [vm_compute; discriminate|reflexivity..].
  - reflexivity.
Defined.

(** The sample directory [photos], saved under a directory that does not
    exist: the three input files are read, then the opening fails. *)
Lemma unwritable_save_path_fails_last_witness :
  @convert_files_to_pdf toy (PStr "photos") (PStr "nowhere/x.pdf") 300
    sample_world
  = (Raise (OS.enoent "nowhere/x.pdf"),
     logged_all
       (EvListdir (Pathlib.str (ensure_path (PStr "photos")))
        :: map access [mkPath "" ["photos"; "a.pdf"];
                       mkPath "" ["photos"; "b.PNG"];
                       mkPath "" ["photos"; "c.jpeg"]]
        ++ [EvOpenWb (Pathlib.str
              (final_path (w_fs sample_world) (ensure_path (PStr "photos"))
                 (ensure_path (PStr "nowhere/x.pdf"))))]) sample_world).
Proof.
  apply (@unwritable_save_path_fails_last toy sample_world (PStr "photos")
           (PStr "nowhere/x.pdf") 300
           [mkPath "" ["photos"; "a.pdf"]; mkPath "" ["photos"; "b.PNG"];
            mkPath "" ["photos"; "c.jpeg"]]
           [[Byte.x01; Byte.x02]; [Byte.x07]; [Byte.x09]]).
  - reflexivity.
  - constructor; [|constructor; [|constructor; [|constructor]]].
    + eapply (@contributes_pdf toy); reflexivity.
    + eapply (@contributes_image toy); [vm_compute; discriminate|reflexivity..].
    + eapply (@contributes_image toy); [vm_compute; discriminate|reflexivity..].
  - reflexivity.
Defined.


(** A directory below a regular file is not a directory either. *)
Example convert_below_regular_file :
  @convert_files_to_pdf toy (PStr "result.pdf/sub") (PStr "out") 300
    sample_world
  = (Raise (mkExn NotADirectoryError
              "[Errno 20] Not a directory: 'result.pdf/sub'"),
     logged (EvListdir "result.pdf/sub") sample_world).
Proof. reflexivity. Qed.

(** A save path below a regular file, and one below a missing name. *)
Example open_wb_error_classes :
  OS.open_wb sample_fs "result.pdf/x.pdf"
  = Raise (mkExn NotADirectoryError
             "[Errno 20] Not a directory: 'result.pdf/x.pdf'") /\
  OS.open_wb sample_fs "nowhere/x.pdf"
  = Raise (mkExn FileNotFoundError
             "[Errno 2] No such file or directory: 'nowhere/x.pdf'") /\
  OS.open_wb sample_fs "out"
  = Raise (mkExn IsADirectoryError "[Errno 21] Is a directory: 'out'").
Proof. repeat split. Qed.

(** The sample image [photos/b.PNG] in the loop body. *)
Lemma add_file_image_one_page_witness :
  logged (EvImageOpen "photos/b.PNG") sample_world
  = logged (EvImageOpen (Pathlib.str (Pathlib.of_str "photos/b.PNG")))
      sample_world /\
  exists data img encoded p rest,
    OS.read (w_fs sample_world) (Pathlib.str (Pathlib.of_str "photos/b.PNG"))
    = Ok data /\
    @Image_decode toy data = Ok img /\
    @Image_encode_pdf toy (@Image_convert toy img "RGB") 300 = Ok encoded /\
    @PdfReader_parse toy encoded = Ok (p :: rest) /\
    [Byte.x07] = ([] ++ [p])%list.
Proof.
  apply (@add_file_image_one_page toy 300 [] [Byte.x07]
           (Pathlib.of_str "photos/b.PNG") sample_world).
  - vm_compute. discriminate.
  - reflexivity.
Defined.

(** The sample directory [scans] of two images gives two pages. *)
Lemma images_only_one_page_each_witness :
  exists pages,
    OS.read
      (w_fs (snd (@convert_files_to_pdf toy (PStr "scans") (PStr "out") 300
                    gallery_world)))
      (Pathlib.str (Pathlib.of_str "out/scans_combined_output.pdf"))
    = Ok (@PdfWriter_serialize toy pages) /\
    List.length pages
    = List.length [mkPath "" ["scans"; "page1.jpg"];
                   mkPath "" ["scans"; "page2.JPG"]].
Proof.
  apply (@images_only_one_page_each toy gallery_world _ (PStr "scans")
           (PStr "out") 300).
  - reflexivity.
  - repeat constructor; vm_compute; discriminate.
  - reflexivity.
Defined.

(** The sample directory [photos], saved as [out/book], a name without an
    extension. *)
Lemma save_path_used_as_is_witness :
  resolve_save_path (ensure_path (PStr "photos")) (ensure_path (PStr "out/book"))
    sample_world
  = (Ok (ensure_path (PStr "out/book")), sample_world) /\
  (forall p w',
      @convert_files_to_pdf toy (PStr "photos") (PStr "out/book") 300
        sample_world = (Ok p, w') ->
      p = ensure_path (PStr "out/book") /\
      exists data, OS.read (w_fs w') (Pathlib.str (ensure_path (PStr "out/book")))
                   = Ok data).
Proof.
  apply (@save_path_used_as_is toy sample_world (PStr "photos")
           (PStr "out/book") 300).
  reflexivity.
Defined.

Example convert_photos_to_book :
  fst (@convert_files_to_pdf toy (PStr "photos") (PStr "out/book") 300
         sample_world)
  = Ok (Pathlib.of_str "out/book").
Proof. reflexivity. Qed.

(* ================================================================== *)
(** * More on the front end *)
(* ================================================================== *)

Section FrontEndModes.

Context {L : Collaborators}.






End FrontEndModes.


Example main_input_alone_is_ignored :
  w_stdout (snd (@main toy (mkArgs (Some "texts") None 300)
                   (mkWorld sample_fs [] [Line "photos"; Line "out"] [])))
  = ["Input directory Path: "; "Output PDF Path: ";
     "PDF created successfully: out/photos_combined_output.pdf"
     ++ String "010" ""].
Proof. reflexivity. Qed.



(* ================================================================== *)
(** * Running the assembler a second time *)
(* ================================================================== *)

Lemma replace_same (x : string) (c : node) (es : list (string * node)) :
  OS.assoc x es = Some c -> OS.replace x c es = es.
Proof.
  induction es as [|[k n] es IH]; simpl; [reflexivity|].
  destruct (String.eqb x k) eqn:E.
  - now intros [= ->].
  - intros H. now rewrite IH.
Qed.

Lemma replace_replace (x : string) (c c' : node) (es : list (string * node)) :
  OS.replace x c' (OS.replace x c es) = OS.replace x c' es.
Proof.
  induction es as [|[k n] es IH]; simpl; [reflexivity|].
  destruct (String.eqb x k) eqn:E; simpl; rewrite E; [reflexivity|].
  now rewrite IH.
Qed.

Lemma replace_new (x : string) (c c' : node) (es : list (string * node)) :
  OS.assoc x es = None ->
  OS.replace x c' (es ++ [(x, c)]) = (es ++ [(x, c')])%list.
Proof.
  induction es as [|[k n] es IH]; simpl.
  - now rewrite String.eqb_refl.
  - destruct (String.eqb x k) eqn:E; [discriminate|].
    intros H. now rewrite IH.
Qed.

(** Storing twice at the same place is storing the second contents. *)
Lemma store_store (names : list string) (a b : bytes) (n n1 n2 : node) :
  OS.store n names a = Some n1 -> OS.store n1 names b = Some n2 ->
  OS.store n names b = Some n2.
Proof.
  revert n n1 n2. induction names as [|x rest IH]; intros n n1 n2; simpl.
  - destruct n; [|discriminate]. intros [= <-]. simpl. auto.
  - destruct n as [|es]; [discriminate|].
    destruct (OS.assoc x es) as [c|] eqn:Hx.
    + destruct (OS.store c rest a) as [c1|] eqn:Hs1; [|discriminate].
      intros [= <-]. simpl. rewrite assoc_replace by congruence.
      destruct (OS.store c1 rest b) as [c2|] eqn:Hs2; [|discriminate].
      intros [= <-]. rewrite (IH c c1 c2 Hs1 Hs2).
      now rewrite replace_replace.
    + destruct rest; [|discriminate]. intros [= <-]. simpl.
      rewrite assoc_app, Hx. simpl. rewrite String.eqb_refl.
      intros [= <-]. now rewrite replace_new.
Qed.

(** Storing what is there changes nothing. *)
Lemma store_same (names : list string) (data : bytes) (n : node) :
  OS.lookup n names = Some (File data) -> OS.store n names data = Some n.
Proof.
  revert n. induction names as [|x rest IH]; intros n; simpl.
  - now intros [= ->].
  - destruct n as [|es]; [discriminate|].
    destruct (OS.assoc x es) as [c|] eqn:Hx; [|discriminate].
    intros Hl. rewrite (IH c Hl). now rewrite (replace_same x c es Hx).
Qed.

Lemma is_dir_at_file (data : bytes) (cur : list string) :
  is_dir_at (File data) cur = false.
Proof. unfold is_dir_at. now destruct cur. Qed.

(** [store] makes no directory and removes none. *)
Lemma store_dirs_same (names : list string) (data : bytes) (n n' : node) :
  OS.store n names data = Some n' ->
  forall cur, is_dir_at n' cur = is_dir_at n cur.
Proof.
  revert n n'. induction names as [|x rest IH]; intros n n'; simpl.
  - destruct n; [|discriminate]. intros [= <-] cur.
    now rewrite !is_dir_at_file.
  - destruct n as [|es0]; [discriminate|].
    destruct (OS.assoc x es0) as [c|] eqn:Hx.
    + destruct (OS.store c rest data) as [c'|] eqn:Hs; [|discriminate].
      intros [= <-] [|y cur]; [reflexivity|].
      unfold is_dir_at. simpl.
      destruct (String.eqb y x) eqn:Eyx.
      * apply String.eqb_eq in Eyx. subst y.
        rewrite Hx, assoc_replace by congruence. apply (IH c c' Hs cur).
      * apply String.eqb_neq in Eyx.
        now rewrite assoc_replace_other by exact Eyx.
    + destruct rest; [|discriminate].
      intros [= <-] [|y cur]; [reflexivity|].
      unfold is_dir_at. simpl. rewrite assoc_app.
      destruct (OS.assoc y es0) as [c0|] eqn:Hy; [reflexivity|].
      simpl. destruct (String.eqb y x); [|reflexivity].
      apply (is_dir_at_file data cur).
Qed.

Lemma walk_same (rt rt' : node) (comps cur : list string) :
  (forall cur, is_dir_at rt' cur = is_dir_at rt cur) ->
  OS.walk rt' cur comps = OS.walk rt cur comps.
Proof.
  intros Hd. revert cur. induction comps as [|c rest IH]; intros cur; simpl;
    [reflexivity|].
  specialize (Hd cur). unfold is_dir_at in Hd.
  destruct (OS.lookup rt cur) as [[|es]|], (OS.lookup rt' cur) as [[|es']|];
    try discriminate; try reflexivity.
  apply IH.
Qed.

(** After a file is written, the same paths are directories as before. *)
Lemma isdir_after_write (fs fs1 : filesystem) (s s' : string)
  (h : list string) (data : bytes) :
  OS.open_wb fs s = Ok (h, fs1) ->
  OS.isdir (OS.write fs1 h data) s' = OS.isdir fs s'.
Proof.
  unfold OS.open_wb, OS.write.
  destruct (OS.namei fs s) as [names|]; [|discriminate].
  destruct (OS.store (fs_root fs) names []) as [rt1|] eqn:Hs1;
    [|destruct (OS.lookup (fs_root fs) names) as [[|?]|]; discriminate].
  intros Hopen.
  assert (h = names /\ fs1 = mkFs rt1 (fs_cwd fs)) as [-> ->]
    by (destruct (OS.lookup (fs_root fs) names) as [[|?]|];
        inversion Hopen; auto).
  clear Hopen. simpl. rewrite (lookup_store _ _ _ _ Hs1).
  destruct (store_existing names ([] ++ data)%list [] rt1
              (lookup_store _ _ _ _ Hs1)) as [rt2 Hs2].
  rewrite Hs2.
  assert (Hd : forall cur, is_dir_at rt2 cur = is_dir_at (fs_root fs) cur).
  { intros cur. rewrite (store_dirs_same _ _ _ _ Hs2 cur).
    apply (store_dirs_same _ _ _ _ Hs1 cur). }
  unfold OS.isdir, OS.stat, OS.namei. simpl.
  rewrite (walk_same (fs_root fs) rt2 _ _ Hd).
  destruct (OS.walk (fs_root fs) _ _) as [q|]; [|reflexivity].
  apply (Hd q).
Qed.

(** Writing the same contents to the same path again leaves the file
    system as the first writing left it. *)
Lemma write_again (fs fs1 : filesystem) (s : string)
  (h : list string) (data : bytes) :
  OS.open_wb fs s = Ok (h, fs1) ->
  exists fs2,
    OS.open_wb (OS.write fs1 h data) s = Ok (h, fs2) /\
    OS.write fs2 h data = OS.write fs1 h data.
Proof.
  unfold OS.open_wb, OS.write, OS.namei.
  destruct (OS.walk (fs_root fs) _ (tail (Pathlib.of_str s)))
    as [names|] eqn:Hw; [|discriminate].
  destruct (OS.store (fs_root fs) names []) as [rt1|] eqn:Hs1;
    [|destruct (OS.lookup (fs_root fs) names) as [[|?]|]; discriminate].
  intros Hopen.
  assert (h = names /\ fs1 = mkFs rt1 (fs_cwd fs)) as [-> ->]
    by (destruct (OS.lookup (fs_root fs) names) as [[|?]|];
        inversion Hopen; auto).
  clear Hopen. simpl. rewrite (lookup_store _ _ _ _ Hs1).
  destruct (store_existing names ([] ++ data)%list [] rt1
              (lookup_store _ _ _ _ Hs1)) as [rt2 Hs2].
  rewrite Hs2. simpl.
  assert (Hd : forall cur, is_dir_at rt2 cur = is_dir_at (fs_root fs) cur).
  { intros cur. rewrite (store_dirs_same _ _ _ _ Hs2 cur).
    apply (store_dirs_same _ _ _ _ Hs1 cur). }
  rewrite (walk_same (fs_root fs) rt2 _ _ Hd), Hw.
  pose proof (lookup_store _ _ _ _ Hs2) as Hl2. rewrite Hl2.
  destruct (store_existing names [] _ rt2 Hl2) as [rt3 Hs3]. rewrite Hs3.
  eexists. split; [reflexivity|]. simpl.
  pose proof (lookup_store _ _ _ _ Hs3) as Hl3. rewrite Hl3.
  destruct (store_existing names ([] ++ data)%list [] rt3 Hl3) as [rt4 Hs4].
  rewrite Hs4. f_equal.
  pose proof (store_store _ _ _ _ _ _ Hs3 Hs4) as H24.
  rewrite (store_same _ _ _ Hl2) in H24. congruence.
Qed.

Section SecondRun.

Context {L : Collaborators}.

(** A run that returns, with the file system it leaves. *)
Lemma convert_files_to_pdf_inv_fs (w w' : world) (directory save_path : PathLike)
  (dpi : Z) (p : Path) :
  convert_files_to_pdf directory save_path dpi w = (Ok p, w') ->
  exists files pss h fs1,
    fst (get_input_files directory w) = Ok files /\
    Forall2 (contributes (w_fs w) dpi) files pss /\
    p = final_path (w_fs w) (ensure_path directory) (ensure_path save_path) /\
    OS.open_wb (w_fs w) (Pathlib.str p) = Ok (h, fs1) /\
    w_fs w' = OS.write fs1 h (PdfWriter_serialize (List.concat pss)).
Proof.
  pose proof (convert_files_to_pdf_eq directory save_path dpi w) as Heq.
  cbv zeta in Heq. rewrite Heq. clear Heq.
  pose proof (get_input_files_world directory w) as Hw1.
  destruct (get_input_files directory w) as [[files|e] w1]; [|discriminate].
  simpl in Hw1. subst w1.
  destruct (add_files dpi PdfWriter_new files _) as [[pages|e] w2] eqn:Hadd;
    [|discriminate].
  destruct (add_files_world dpi files PdfWriter_new
              (logged (EvListdir (Pathlib.str (ensure_path directory))) w))
    as [k Hw2].
  rewrite Hadd in Hw2. simpl in Hw2. subst w2.
  destruct (add_files_inv _ _ _ _ _ _ Hadd) as (pss & Hall & ->).
  rewrite write_wb_eq. cbn [w_fs logged_all logged].
  destruct (OS.open_wb _ _) as [[h fs1]|e] eqn:Hopen; [|discriminate].
  intros [= <- <-]. exists files, pss, h, fs1.
  repeat split; [exact Hall|exact Hopen].
Qed.

Lemma contributes_frame (fs fs' : filesystem) (dpi : Z) (f : Path)
  (ps : list page) :
  OS.read fs' (Pathlib.str f) = OS.read fs (Pathlib.str f) ->
  contributes fs dpi f ps -> contributes fs' dpi f ps.
Proof.
  intros Hr [data pages Hs Hread Hp|data encoded img q rest Hs Hread Hd He Hp].
  - apply (contributes_pdf _ _ _ data); congruence.
  - apply (contributes_image _ _ _ data encoded img q rest); congruence.
Qed.

(** X13. A second run overwrites with the same document.  When a run
    has returned, and what it wrote changes neither the list that the
    scanner returns nor what is read from the scanned files (the output is
    not one of its own inputs), a second run with the same arguments
    returns the same path and leaves the file system exactly as the first
    run left it: the document is written over, nothing is added to it. *)
Theorem second_run_same_result
  (w w1 : world) (directory save_path : PathLike) (dpi : Z) (p : Path) :
  convert_files_to_pdf directory save_path dpi w = (Ok p, w1) ->
  fst (get_input_files directory w1) = fst (get_input_files directory w) ->
  (forall files f,
      fst (get_input_files directory w) = Ok files -> In f files ->
      OS.read (w_fs w1) (Pathlib.str f) = OS.read (w_fs w) (Pathlib.str f)) ->
  exists w2,
    convert_files_to_pdf directory save_path dpi w1 = (Ok p, w2) /\
    w_fs w2 = w_fs w1.
Proof.
  intros Hrun Hscan Hread.
  destruct (convert_files_to_pdf_inv_fs _ _ _ _ _ _ Hrun)
    as (files & pss & h & fs1 & Hfiles & Hall & Hp & Hopen & Hfs).
  assert (Hall1 : Forall2 (contributes (w_fs w1) dpi) files pss).
  { assert (Hin : forall f, In f files ->
                   OS.read (w_fs w1) (Pathlib.str f)
                   = OS.read (w_fs w) (Pathlib.str f))
      by (intros f; apply (Hread files f Hfiles)).
    clear - Hall Hin. induction Hall as [|f ps files pss Hf Hall IH];
      constructor.
    - apply (contributes_frame (w_fs w)); [apply Hin; now left|exact Hf].
    - apply IH. intros g Hg. apply Hin. now right. }
  assert (Hfinal : final_path (w_fs w1) (ensure_path directory)
                     (ensure_path save_path) = p).
  { rewrite Hp. unfold final_path. rewrite Hfs.
    now rewrite (isdir_after_write (w_fs w) fs1 (Pathlib.str p) _ h _ Hopen). }
  destruct (write_again (w_fs w) fs1 (Pathlib.str p) h
              (PdfWriter_serialize (List.concat pss)) Hopen)
    as (fs2 & Hopen2 & Hsame).
  rewrite <- Hfs in Hopen2, Hsame.
  pose proof (convert_files_to_pdf_eq directory save_path dpi w1) as Heq.
  cbv zeta in Heq. rewrite Heq. clear Heq. rewrite Hfinal.
  pose proof (get_input_files_world directory w1) as Hw.
  rewrite Hfiles in Hscan.
  destruct (get_input_files directory w1) as [r w1']. simpl in Hscan, Hw.
  subst r w1'.
  rewrite (add_files_ok dpi files pss PdfWriter_new (logged _ w1) Hall1).
  rewrite write_wb_eq. cbn [w_fs logged_all logged]. rewrite Hopen2.
  eexists. split; [reflexivity|]. exact Hsame.
Qed.

End SecondRun.

(** The sample directory [photos] converted into [out], twice. *)
Lemma second_run_same_result_witness :
  exists w2,
    @convert_files_to_pdf toy (PStr "photos") (PStr "out") 300
      (snd (@convert_files_to_pdf toy (PStr "photos") (PStr "out") 300
              sample_world))
    = (Ok (Pathlib.of_str "out/photos_combined_output.pdf"), w2) /\
    w_fs w2
    = w_fs (snd (@convert_files_to_pdf toy (PStr "photos") (PStr "out") 300
                   sample_world)).
Proof.
  apply (@second_run_same_result toy sample_world _ (PStr "photos")
           (PStr "out") 300).
  - reflexivity.
  - reflexivity.
  - intros files f [= <-] [<-|[<-|[<-|[]]]]; reflexivity.
Defined.

(** When the output is saved into the input directory itself, it is an
    input of the next run: the second document of the sample directory
    [scans] holds the two pages of the first one and the pages of the two
    images. *)
Example second_run_in_input_directory :
  let w1 := snd (@convert_files_to_pdf toy (PStr "scans") (PStr "scans") 300
                   gallery_world) in
  let w2 := snd (@convert_files_to_pdf toy (PStr "scans") (PStr "scans") 300
                   w1) in
  OS.read (w_fs w1) "scans/scans_combined_output.pdf"
  = Ok [Byte.x50; Byte.x11; Byte.x22] /\
  OS.read (w_fs w2) "scans/scans_combined_output.pdf"
  = Ok [Byte.x50; Byte.x11; Byte.x22; Byte.x11; Byte.x22].
Proof. split; reflexivity. Qed.

(* ================================================================== *)
(** * What a run leaves alone, and what the DPI does not touch *)
(* ================================================================== *)

(** [store] leaves every other regular file as it is. *)
Lemma store_keeps_files (names : list string) (data x : bytes) (n n' : node) :
  OS.store n names data = Some n' ->
  forall q, OS.lookup n q = Some (File x) -> q <> names ->
            OS.lookup n' q = Some (File x).
Proof.
  revert n n'. induction names as [|x0 rest IH]; intros n n'; simpl.
  - destruct n; [|discriminate]. intros _ [|y q]; simpl;
      [congruence|discriminate].
  - destruct n as [|es]; [discriminate|].
    destruct (OS.assoc x0 es) as [c|] eqn:Hx.
    + destruct (OS.store c rest data) as [c'|] eqn:Hs; [|discriminate].
      intros [= <-] [|y q]; simpl; [discriminate|].
      destruct (String.eqb y x0) eqn:Eyx.
      * apply String.eqb_eq in Eyx. subst y.
        rewrite Hx, assoc_replace by congruence.
        intros Hl Hne. apply (IH c c' Hs q Hl). congruence.
      * apply String.eqb_neq in Eyx.
        now rewrite assoc_replace_other by exact Eyx.
    + destruct rest; [|discriminate].
      intros [= <-] [|y q]; simpl; [discriminate|].
      rewrite assoc_app. destruct (OS.assoc y es); [auto|discriminate].
Qed.

(** A file at another place reads the same after a write. *)
Lemma read_other_after_write (fs fs1 : filesystem) (s s' : string)
  (h q : list string) (data x : bytes) :
  OS.open_wb fs s = Ok (h, fs1) ->
  OS.namei fs s' = Some q -> q <> h ->
  OS.read fs s' = Ok x ->
  OS.read (OS.write fs1 h data) s' = Ok x.
Proof.
  unfold OS.open_wb, OS.write.
  destruct (OS.namei fs s) as [names|]; [|discriminate].
  destruct (OS.store (fs_root fs) names []) as [rt1|] eqn:Hs1;
    [|destruct (OS.lookup (fs_root fs) names) as [[|?]|]; discriminate].
  intros Hopen.
  assert (h = names /\ fs1 = mkFs rt1 (fs_cwd fs)) as [-> ->]
    by (destruct (OS.lookup (fs_root fs) names) as [[|?]|];
        inversion Hopen; auto).
  clear Hopen. simpl. rewrite (lookup_store _ _ _ _ Hs1).
  destruct (store_existing names ([] ++ data)%list [] rt1
              (lookup_store _ _ _ _ Hs1)) as [rt2 Hs2].
  rewrite Hs2.
  assert (Hd : forall cur, is_dir_at rt2 cur = is_dir_at (fs_root fs) cur).
  { intros cur. rewrite (store_dirs_same _ _ _ _ Hs2 cur).
    apply (store_dirs_same _ _ _ _ Hs1 cur). }
  unfold OS.read, OS.stat, OS.namei. simpl.
  rewrite (walk_same (fs_root fs) rt2 _ _ Hd).
  intros Hq Hne. unfold OS.namei in Hq. rewrite Hq.
  destruct (OS.lookup (fs_root fs) q) as [[y|?]|] eqn:Hl; try discriminate.
  intros [= ->].
  rewrite (store_keeps_files _ _ _ _ _ Hs2 q
             (store_keeps_files _ _ _ _ _ Hs1 q Hl Hne) Hne).
  reflexivity.
Qed.

Lemma open_wb_namei (fs fs1 : filesystem) (s : string) (h : list string) :
  OS.open_wb fs s = Ok (h, fs1) -> OS.namei fs s = Some h.
Proof.
  unfold OS.open_wb. destruct (OS.namei fs s) as [names|]; [|discriminate].
  destruct (OS.lookup (fs_root fs) names) as [[|?]|];
    destruct (OS.store (fs_root fs) names []); try discriminate;
    now intros [= -> _].
Qed.

Section LeftAlone.

Context {L : Collaborators}.

(** X14. A run writes at the save path and nowhere else: a regular file
    that lies at another place than the resolved save path reads the same
    after [convert_files_to_pdf] as before it, whether the run returns or
    raises.  In particular the input files are not changed. *)
Theorem only_the_save_path_is_written
  (w : world) (directory save_path : PathLike) (dpi : Z)
  (s : string) (q : list string) (x : bytes) :
  OS.namei (w_fs w) s = Some q ->
  OS.namei (w_fs w)
    (Pathlib.str (final_path (w_fs w) (ensure_path directory)
                    (ensure_path save_path))) <> Some q ->
  OS.read (w_fs w) s = Ok x ->
  OS.read (w_fs (snd (convert_files_to_pdf directory save_path dpi w))) s
  = Ok x.
Proof.
  intros Hq Hne Hread.
  pose proof (convert_files_to_pdf_eq directory save_path dpi w) as Heq.
  cbv zeta in Heq. rewrite Heq. clear Heq.
  pose proof (get_input_files_world directory w) as Hw1.
  destruct (get_input_files directory w) as [[files|e] w1]; simpl in Hw1;
    subst w1; [|exact Hread].
  destruct (add_files_world dpi files PdfWriter_new
              (logged (EvListdir (Pathlib.str (ensure_path directory))) w))
    as [k Hw2].
  destruct (add_files dpi PdfWriter_new files _) as [[pages|e] w2];
    simpl in Hw2; subst w2; [|exact Hread].
  rewrite write_wb_eq. cbn [w_fs logged_all logged].
  destruct (OS.open_wb _ _) as [[h fs1]|e] eqn:Hopen; [|exact Hread].
  cbn [snd w_fs with_fs].
  apply (read_other_after_write (w_fs w) fs1 _ s h q _ x Hopen Hq);
    [|exact Hread].
  intros ->. apply Hne. now apply (open_wb_namei _ fs1).
Qed.

(** The loop over PDF files does not depend on the DPI. *)
Lemma add_files_pdf_dpi (dpi1 dpi2 : Z) (files : list Path) :
  Forall (fun f => PyStr.lower (Pathlib.suffix f) = ".pdf") files ->
  forall acc w, add_files dpi1 acc files w = add_files dpi2 acc files w.
Proof.
  induction 1 as [|f files Hf Hall IH]; intros acc w; simpl; [reflexivity|].
  unfold bind. rewrite (add_file_pdf dpi1 acc f w Hf),
    (add_file_pdf dpi2 acc f w Hf).
  destruct (OS.read _ _); [|reflexivity].
  destruct (PdfReader_parse _); [apply IH|reflexivity].
Qed.

(** X15. The DPI is for images only: when every scanned file has the
    lower-cased suffix [.pdf], [convert_files_to_pdf] does the same for
    any two values of [image_dpi], result and effects alike. *)
Theorem dpi_irrelevant_for_pdfs
  (w : world) (directory save_path : PathLike) (dpi1 dpi2 : Z)
  (files : list Path) :
  fst (get_input_files directory w) = Ok files ->
  Forall (fun f => PyStr.lower (Pathlib.suffix f) = ".pdf") files ->
  convert_files_to_pdf directory save_path dpi1 w
  = convert_files_to_pdf directory save_path dpi2 w.
Proof.
  intros Hscan Hall.
  pose proof (convert_files_to_pdf_eq directory save_path dpi1 w) as H1.
  pose proof (convert_files_to_pdf_eq directory save_path dpi2 w) as H2.
  cbv zeta in H1, H2. rewrite H1, H2.
  destruct (get_input_files directory w) as [r w1]. simpl in Hscan. subst r.
  now rewrite (add_files_pdf_dpi dpi1 dpi2 files Hall).
Qed.

End LeftAlone.

(** In the sample tree, [photos/b.PNG] after [photos] is converted into
    [out]. *)
Lemma only_the_save_path_is_written_witness :
  OS.read
    (w_fs (snd (@convert_files_to_pdf toy (PStr "photos") (PStr "out") 300
                  sample_world))) "photos/b.PNG"
  = Ok [Byte.x49; Byte.x07].
Proof.
  apply (@only_the_save_path_is_written toy sample_world (PStr "photos")
           (PStr "out") 300 "photos/b.PNG" ["photos"; "b.PNG"]).
  - reflexivity.
  - vm_compute. discriminate.
  - reflexivity.
Defined.

(** The sample directory [single] holds one PDF: 72 and 600 DPI give the
    same run. *)
Lemma dpi_irrelevant_for_pdfs_witness :
  @convert_files_to_pdf toy (PStr "single") (PStr "out") 72 sample_world
  = @convert_files_to_pdf toy (PStr "single") (PStr "out") 600 sample_world.
Proof.
  apply (@dpi_irrelevant_for_pdfs toy sample_world (PStr "single") (PStr "out")
           72 600 [mkPath "" ["single"; "X.PDF"]]).
  - reflexivity.
  - repeat constructor.
Defined.
